(** * eks-anywhere, pkg/gitops/flux: the GitOps repository workflow

    A shallow embedding of [pkg/gitops/flux/flux.go].  The collaborators of
    the package (the flux executable, the local git client, the remote
    provider, the file writer, the local disk) are an oracle that answers
    every call from the history of the calls made so far; the Go code is
    written in a small state monad that records each call and each log line.
    A nil interface that the code dereferences is a [Panic]. *)

From Stdlib Require Import String Ascii List Bool Arith Lia.
Import ListNotations.
Open Scope string_scope.
Open Scope list_scope.

Set Implicit Arguments.

(* ================================================================== *)
(** ** Go standard library: [path], [path/filepath], [strings] *)

Module GoPath.

Definition slash : ascii := "/"%char.
Definition dot : ascii := "."%char.

Definition chars (s : string) : list ascii := list_ascii_of_string s.
Definition str (l : list ascii) : string := string_of_list_ascii l.

(** [strings.Split(s, "/")]. *)
Fixpoint split_slash (s : string) : list string :=
  match s with
  | EmptyString => [EmptyString]
  | String c r =>
      if Ascii.eqb c slash then EmptyString :: split_slash r
      else match split_slash r with
           | [] => [String c EmptyString]
           | h :: t => String c h :: t
           end
  end.

Definition is_rooted (s : string) : bool :=
  match s with
  | String c _ => Ascii.eqb c slash
  | EmptyString => false
  end.

(** The element loop of [path.Clean]: [stack] holds the elements kept so
    far, innermost first.  An empty element and [.] are skipped; [..]
    drops the innermost kept element when there is one that is not itself
    [..], is dropped at the root, and is kept otherwise. *)
Fixpoint clean_elems (rooted : bool) (stack : list string)
         (elems : list string) : list string :=
  match elems with
  | [] => rev stack
  | e :: rest =>
      if (e =? "") || (e =? ".") then clean_elems rooted stack rest
      else if e =? ".." then
        match stack with
        | top :: below =>
            if top =? ".." then clean_elems rooted (e :: stack) rest
            else clean_elems rooted below rest
        | [] =>
            if rooted then clean_elems rooted [] rest
            else clean_elems rooted [e] rest
        end
      else clean_elems rooted (e :: stack) rest
  end.

(** [path.Clean]. *)
Definition Clean (p : string) : string :=
  if p =? "" then "."
  else
    let body := String.concat "/" (clean_elems (is_rooted p) [] (split_slash p)) in
    if is_rooted p then "/" ++ body
    else if body =? "" then "." else body.

(** [path.Join]: empty elements are ignored, the rest is joined with
    slashes and cleaned; the result is empty when every element is. *)
Definition Join (elem : list string) : string :=
  match filter (fun e => negb (e =? "")) elem with
  | [] => ""
  | ne => Clean (String.concat "/" ne)
  end.

(** The directory half of [path.Split]: everything up to and including
    the last slash. *)
Fixpoint split_dir (p : string) : string :=
  match p with
  | EmptyString => EmptyString
  | String c r =>
      let d := split_dir r in
      if Ascii.eqb c slash || negb (d =? "") then String c d else EmptyString
  end.

(** [path.Dir]. *)
Definition Dir (p : string) : string := Clean (split_dir p).

Fixpoint drop_slashes (l : list ascii) : list ascii :=
  match l with
  | c :: r => if Ascii.eqb c slash then drop_slashes r else l
  | [] => []
  end.

Fixpoint take_elem (l : list ascii) : list ascii :=
  match l with
  | c :: r => if Ascii.eqb c slash then [] else c :: take_elem r
  | [] => []
  end.

(** [path.Base]: the last element, trailing slashes removed first. *)
Definition Base (p : string) : string :=
  if p =? "" then "."
  else
    match take_elem (drop_slashes (rev (chars p))) with
    | [] => "/"
    | l => str (rev l)
    end.

(** [filepath.Ext] walks back from the end of the final element to its
    last dot; [l] is the reversed path, [acc] the suffix read so far. *)
Fixpoint ext_scan (l acc : list ascii) : list ascii :=
  match l with
  | [] => []
  | c :: r =>
      if Ascii.eqb c slash then []
      else if Ascii.eqb c dot then c :: acc
      else ext_scan r (c :: acc)
  end.

Definition Ext (p : string) : string := str (ext_scan (rev (chars p)) []).

(** [strings.TrimSuffix]. *)
Definition TrimSuffix (s suffix : string) : string :=
  let n := String.length s in
  let k := String.length suffix in
  if Nat.leb k n && (substring (n - k) k s =? suffix)
  then substring 0 (n - k) s
  else s.

End GoPath.

(* ================================================================== *)
(** ** Errors *)

(** A Go [error] value as this package sees it.  [fmt.Errorf] keeps its
    format string, its string arguments and the error it formats; with the
    verb [%w] the result unwraps to that error, with [%v] it does not. *)
Inductive error : Type :=
| Opaque (msg : string)
| RepositoryIsEmptyError (repository : string)
| Errorf (format : string) (args : list string)
| Errorf_w (format : string) (args : list string) (cause : error)
| Errorf_v (format : string) (args : list string) (cause : error)
| ConfigVersionControlFailedError (Err : error).

(** [errors.As(err, &repoEmptyErr)] with a target of type
    [*git.RepositoryIsEmptyError]: follows [Unwrap], which only the [%w]
    errors have ([ConfigVersionControlFailedError] declares none). *)
Fixpoint errors_As_RepositoryIsEmpty (err : error) : bool :=
  match err with
  | RepositoryIsEmptyError _ => true
  | Errorf_w _ _ cause => errors_As_RepositoryIsEmpty cause
  | Opaque _ | Errorf _ _ | Errorf_v _ _ _
  | ConfigVersionControlFailedError _ => false
  end.

Definition is_ConfigVersionControlFailedError (err : error) : bool :=
  match err with
  | ConfigVersionControlFailedError _ => true
  | _ => false
  end.

(* ================================================================== *)
(** ** Data model *)

Record GithubProviderConfig := {
  Owner : string;
  Repository : string;
  Personal : bool
}.

Record GitProviderConfig := {
  RepositoryUrl : string
}.

(** [v1alpha1.FluxConfig], its [Spec] flattened. *)
Record FluxConfig := {
  SystemNamespace : string;
  ClusterConfigPath : string;
  Branch : string;
  Github : option GithubProviderConfig;
  Git : option GitProviderConfig
}.

(** Modelled from the spec: [v1alpha1.Cluster] with its methods [IsManaged]
    and [IsSelfManaged] (pkg/api/v1alpha1 is not part of the sources at
    hand).  The cluster context carries a "flag indicating whether this is a
    workload (managed) cluster joining an existing management plane vs. a
    self-managed/management cluster". *)
Record Cluster := {
  Name : string;
  Managed : bool
}.

Definition GetName (c : Cluster) : string := Name c.
Definition IsManaged (c : Cluster) : bool := Managed c.
Definition IsSelfManaged (c : Cluster) : bool := negb (Managed c).

(** The versioned image references of the flux controllers
    ([bundle.Flux.*.VersionedImage()]). *)
Record FluxBundle := {
  SourceController : string;
  KustomizeController : string;
  HelmController : string;
  NotificationController : string
}.

(** [cluster.Spec], reduced to what this package reads. *)
Record Spec := {
  SpecCluster : Cluster;
  SpecFluxConfig : FluxConfig;
  VersionsBundle : FluxBundle
}.

(** [types.Cluster]. *)
Record TypesCluster := {
  ExistingManagement : bool
}.

(** [providers.DatacenterConfig] and [providers.MachineConfig] are only
    tested against nil and handed to the marshaller. *)
Record DatacenterConfig := { datacenterKind : string }.
Record MachineConfig := { machineName : string }.

(** [git.Repository]. *)
Record GitRepository := { repoName : string }.

(** [git.CreateRepoOpts]. *)
Record CreateRepoOpts := {
  optName : string;
  optOwner : string;
  optDescription : string;
  optPersonal : bool;
  optPrivacy : bool
}.

(** [gitFactory.GitTools]: [Provider] may be nil (a generic git remote has
    none); [WriterDir] is what [Writer.Dir()] returns. *)
Record GitTools := {
  Provider : bool;
  WriterDir : string
}.

(** Modelled from the spec: [retrier.Retrier] (pkg/retrier is not part of
    the sources at hand), a "bounded-retry execution wrapper (max attempts,
    fixed delay)". *)
Record Retrier := {
  maxAttempts : nat
}.

Definition maxRetries : nat := 5.

(** [retrier.NewWithMaxRetries(maxRetries, backOffPeriod)]. *)
Definition NewWithMaxRetries (n : nat) : Retrier := {| maxAttempts := n |}.

(** The [Flux] struct; the flux client and the CLI configuration are
    collaborators and carry no data of their own here. *)
Record Flux := {
  gitTools : option GitTools;
  retrier : Retrier
}.

Definition NewFlux (gt : option GitTools) : Flux :=
  {| gitTools := gt; retrier := NewWithMaxRetries maxRetries |}.

Definition SetRetier (f : Flux) (r : Retrier) : Flux :=
  {| gitTools := gitTools f; retrier := r |}.

Record fluxForCluster := {
  fcFlux : Flux;
  clusterSpec : Spec;
  datacenterConfig : option DatacenterConfig;
  machineConfigs : option (list MachineConfig)
}.

(** The embedded manifest templates. *)
Inductive Template : Type :=
| eksaKustomizeContent
| fluxKustomizeContent
| fluxSyncContent
| fluxPatchContent.

Definition defaultRemote := "origin".
Definition eksaSystemDirName := "eksa-system".
Definition kustomizeFileName := "kustomization.yaml".
Definition clusterConfigFileName := "eksa-cluster.yaml".
Definition fluxSyncFileName := "gotk-sync.yaml".
Definition fluxPatchFileName := "gotk-patches.yaml".

Definition initialClusterconfigCommitMessage :=
  "Initial commit of cluster configuration; generated by EKS-A CLI".
Definition updateClusterconfigCommitMessage :=
  "Update commit of cluster configuration; generated by EKS-A CLI".
Definition deleteClusterconfigCommitMessage :=
  "Delete commit of cluster configuration; generated by EKS-A CLI".

(* ================================================================== *)
(** ** Collaborator calls, log lines and the monad *)

(** One call on a collaborator.  The context, the cluster handle and the
    flux configuration are the same for a whole operation and are left out.
    A writer handle is the name the oracle gave it in [r_writer]. *)
Inductive Call : Type :=
(* flux.Client *)
| BootstrapGithub
| BootstrapGit
| Uninstall
| SuspendKustomization
| ResumeKustomization
| FluxForceReconcileGitRepo (namespace : string)
(* git.Client *)
| Clone
| Init
| GitBranch (name : string)
| Add (path : string)
| Remove (path : string)
| Commit (message : string)
| Push
| Pull (branch : string)
(* git.ProviderClient *)
| GetRepo
| CreateRepo (opts : CreateRepoOpts)
| PathExists (owner repository branch path : string)
(* filewriter.FileWriter, templater.Templater *)
| WithDir (dir : string)
| CleanUpTemp (w : string)
| Write (w : string) (fileName content : string)
| WriteToFile (w : string) (t : Template) (values : list (string * string))
              (fileName : string)
(* clustermarshaller, validations *)
| MarshalClusterSpec
| FileExists (path : string).

(** What a collaborator answers; a call reads the fields of its result
    type: [r_err] the error, [r_repo] the repository of [GetRepo], [r_bool]
    the boolean of [PathExists] and [FileExists], [r_writer] the writer of
    [WithDir] (nil when [None]), [r_text] the path or bytes returned. *)
Record Response := {
  r_err : option error;
  r_repo : option GitRepository;
  r_bool : bool;
  r_writer : option string;
  r_text : string
}.

(** The collaborators: the answer to a call, given the calls before it. *)
Definition Env := list Call -> Call -> Response.

(** A line of the logger: [logger.Info] logs at verbosity 0,
    [logger.V(n).Info] at [n]; key/value pairs are left out. *)
Inductive LogEntry : Type :=
| LogInfo (level : nat) (msg : string)
| LogError (err : error) (msg : string).

Record State := {
  calls : list Call;
  logs : list LogEntry
}.

Inductive Result (A : Type) : Type :=
| Ok (a : A)
| Panic.
Arguments Panic {A}.

Definition M (A : Type) : Type := State -> Result A * State.

Definition ret {A} (a : A) : M A := fun s => (Ok a, s).

Definition bind {A B} (m : M A) (k : A -> M B) : M B :=
  fun s =>
    match m s with
    | (Ok a, s') => k a s'
    | (Panic, s') => (Panic, s')
    end.

Definition panic {A} : M A := fun s => (Panic, s).

Declare Scope go_scope.
Delimit Scope go_scope with go.
Notation "x <- m ;; k" := (bind m (fun x => k))
  (at level 61, m at next level, right associativity) : go_scope.
Notation "m ;;; k" := (bind m (fun _ => k))
  (at level 61, right associativity) : go_scope.
Open Scope go_scope.

Definition log (e : LogEntry) : M unit :=
  fun s => (Ok tt, {| calls := calls s; logs := logs s ++ [e] |}).

(** [logger.Info], [logger.V(level).Info], [logger.Error]. *)
Definition logger_Info (msg : string) : M unit := log (LogInfo 0 msg).
Definition logger_V (level : nat) (msg : string) : M unit := log (LogInfo level msg).
Definition logger_Error (err : error) (msg : string) : M unit := log (LogError err msg).

(** Go's [error] results: [None] is nil. *)
Definition nil_error : option error := None.

(** [if err != nil { return wrap(err) }] followed by the rest of the body. *)
Definition or_return (m : M (option error)) (wrap : error -> error)
           (k : M (option error)) : M (option error) :=
  e <- m ;;
  match e with
  | Some err => ret (Some (wrap err))
  | None => k
  end.

Notation "'check' m 'wrapping' w ;; k" := (or_return m w k)
  (at level 61, m at next level, w at next level, right associativity) : go_scope.
Notation "'check' m ;; k" := (or_return m (fun err => err) k)
  (at level 61, m at next level, right associativity) : go_scope.

(** Modelled from the spec: [Retrier.Retry] (pkg/retrier is not part of the
    sources at hand), "uniform bounded retry (fixed attempt count, fixed
    delay)": the closure runs until it returns nil or the attempts are used
    up, and the error of the last attempt is the result.  The closure runs
    at least once; [more] counts the attempts still allowed after the next
    one.  What the closure assigns to a captured variable is returned with
    its error ([errOf] selects the error). *)
Fixpoint retry_loop {X} (errOf : X -> option error) (more : nat) (fn : M X) : M X :=
  x <- fn ;;
  match errOf x with
  | None => ret x
  | Some _ =>
      match more with
      | O => ret x
      | S k => retry_loop errOf k fn
      end
  end.

Definition Retry (r : Retrier) (fn : M (option error)) : M (option error) :=
  retry_loop (fun e => e) (pred (maxAttempts r)) fn.

Definition RetryCapturing {A} (r : Retrier) (fn : M (A * option error))
  : M (A * option error) :=
  retry_loop snd (pred (maxAttempts r)) fn.

(** The attempts a retrier makes at most. *)
Definition attempts (r : Retrier) : nat := S (pred (maxAttempts r)).

(** [validations.ValidationResult]. *)
Record ValidationResult := {
  vName : string;
  vRemediation : string;
  vErr : option error
}.

(* ================================================================== *)
(** ** The package *)

Section FluxPackage.

Variable env : Env.

(** A call on a collaborator: answered by the oracle and recorded. *)
Definition call (c : Call) : M Response :=
  fun s => (Ok (env (calls s) c), {| calls := calls s ++ [c]; logs := logs s |}).

Definition call_err (c : Call) : M (option error) :=
  r <- call c ;; ret (r_err r).

(** [f.gitTools.Client.<method>]: dereferences [f.gitTools]. *)
Definition gitClient (f : Flux) (c : Call) : M (option error) :=
  match gitTools f with
  | Some _ => call_err c
  | None => panic
  end.

(** [f.gitTools.Provider.<method>]: a nil provider cannot be called. *)
Definition gitProvider (f : Flux) (c : Call) : M Response :=
  match gitTools f with
  | Some gt => if Provider gt then call c else panic
  | None => panic
  end.

(** [f.gitTools.Writer.Dir()]. *)
Definition writerDir (f : Flux) : M string :=
  match gitTools f with
  | Some gt => ret (WriterDir gt)
  | None => panic
  end.

(** A method of the writer that [WithDir] returned; nil when [None]. *)
Definition onWriter {A} (w : option string) (k : string -> M A) : M A :=
  match w with
  | Some h => k h
  | None => panic
  end.

Definition shouldSkipFlux (f : Flux) : bool :=
  match gitTools f with
  | None => true
  | Some _ => false
  end.

(** *** Accessors of [fluxForCluster] *)

Definition namespace (fc : fluxForCluster) : string :=
  SystemNamespace (SpecFluxConfig (clusterSpec fc)).

Definition repository (fc : fluxForCluster) : string :=
  match Github (SpecFluxConfig (clusterSpec fc)) with
  | Some gh => Repository gh
  | None =>
      match Git (SpecFluxConfig (clusterSpec fc)) with
      | Some g =>
          let r := RepositoryUrl g in
          GoPath.Base (GoPath.TrimSuffix r (GoPath.Ext r))
      | None => ""
      end
  end.

Definition owner (fc : fluxForCluster) : string :=
  match Github (SpecFluxConfig (clusterSpec fc)) with
  | Some gh => Owner gh
  | None => ""
  end.

Definition branch (fc : fluxForCluster) : string :=
  Branch (SpecFluxConfig (clusterSpec fc)).

Definition personal (fc : fluxForCluster) : bool :=
  match Github (SpecFluxConfig (clusterSpec fc)) with
  | Some gh => Personal gh
  | None => false
  end.

Definition path (fc : fluxForCluster) : string :=
  ClusterConfigPath (SpecFluxConfig (clusterSpec fc)).

Definition eksaSystemDir (fc : fluxForCluster) : string :=
  GoPath.Join [path fc; GetName (SpecCluster (clusterSpec fc)); eksaSystemDirName].

Definition fluxSystemDir (fc : fluxForCluster) : string :=
  GoPath.Join [path fc; namespace fc].

(** *** Commit and push *)

Definition pushToRemoteRepo (f : Flux) (path msg : string) : M (option error) :=
  check gitClient f (Commit msg)
    wrapping (fun err => ConfigVersionControlFailedError
                           (Errorf_v "committing %s to git:  %v" [path] err)) ;;
  check Retry (retrier f) (gitClient f Push)
    wrapping (fun err => ConfigVersionControlFailedError
                           (Errorf_v "pushing %s to git: %v" [path] err)) ;;
  ret nil_error.

(** *** Local and remote repository set-up *)

Definition clone (fc : fluxForCluster) : M (option error) :=
  logger_V 3 "Cloning remote repository" ;;;
  check Retry (retrier (fcFlux fc)) (gitClient (fcFlux fc) Clone) ;;
  logger_V 3 "Creating a new branch" ;;;
  check gitClient (fcFlux fc) (GitBranch (branch fc)) ;;
  ret nil_error.

Definition createRepoOpts (fc : fluxForCluster) : CreateRepoOpts :=
  {| optName := repository fc;
     optOwner := owner fc;
     optDescription := "EKS-A cluster configuration repository";
     optPersonal := personal fc;
     optPrivacy := true |}.

Definition createRemoteRepository (fc : fluxForCluster) : M (option error) :=
  logger_V 3 "Remote Github repo does not exist; will create and initialize" ;;;
  logger_V 3 "Creating remote Github repo" ;;;
  check Retry (retrier (fcFlux fc))
          (r <- gitProvider (fcFlux fc) (CreateRepo (createRepoOpts fc)) ;;
           ret (r_err r))
    wrapping (fun err => Errorf_w "could not create repo: %w" [] err) ;;
  ret nil_error.

Definition initializeLocalRepository (fc : fluxForCluster) : M (option error) :=
  check gitClient (fcFlux fc) Init
    wrapping (fun err => Errorf_w "could not initialize repo: %w" [] err) ;;
  check gitClient (fcFlux fc) (Commit "initializing repository")
    wrapping (fun err => Errorf_v "initializing repository: %v" [] err) ;;
  check gitClient (fcFlux fc) (GitBranch (branch fc))
    wrapping (fun err => Errorf_v "creating branch: %v" [] err) ;;
  ret nil_error.

(** The retried closure of [setupProviderRepository]: it assigns the
    captured [r] and returns the error. *)
Definition describeRepo (fc : fluxForCluster)
  : M (option GitRepository * option error) :=
  RetryCapturing (retrier (fcFlux fc))
    (resp <- gitProvider (fcFlux fc) GetRepo ;;
     ret (r_repo resp, r_err resp)).

Definition setupProviderRepository (fc : fluxForCluster) : M (option error) :=
  d <- describeRepo fc ;;
  let r := fst d in
  match snd d with
  | Some err => ret (Some (Errorf_w "failed to describe repo: %w" [] err))
  | None =>
      err <- match r with
             | Some _ => clone fc
             | None => ret nil_error
             end ;;
      match err with
      | Some e =>
          if errors_As_RepositoryIsEmpty e then
            logger_V 3 "remote repository is empty and can't be cloned; will initialize locally" ;;;
            check initializeLocalRepository fc
              wrapping ConfigVersionControlFailedError ;;
            ret nil_error
          else ret (Some (ConfigVersionControlFailedError e))
      | None =>
          match r with
          | None =>
              check createRemoteRepository fc
                wrapping ConfigVersionControlFailedError ;;
              check initializeLocalRepository fc
                wrapping ConfigVersionControlFailedError ;;
              ret nil_error
          | Some _ => ret nil_error
          end
      end
  end.

Definition syncGitRepo (fc : fluxForCluster) : M (option error) :=
  dir <- writerDir (fcFlux fc) ;;
  ex <- call (FileExists (GoPath.Join [dir; ".git"])) ;;
  if negb (r_bool ex) then
    check clone fc
      wrapping (fun err => Errorf_v "failed cloning git repo: %v" [] err) ;;
    ret nil_error
  else
    check gitClient (fcFlux fc) (GitBranch (branch fc))
      wrapping (fun err => Errorf_v "failed to switch to git branch %s: %v"
                                    [branch fc] err) ;;
    ret nil_error.

(** *** Validations *)

Definition validateLocalConfigPathDoesNotExist (fc : fluxForCluster)
  : M (option error) :=
  if IsSelfManaged (SpecCluster (clusterSpec fc)) then
    dir <- writerDir (fcFlux fc) ;;
    let p := GoPath.Join [dir; path fc] in
    ex <- call (FileExists p) ;;
    if r_bool ex then
      ret (Some (Errorf "a cluster configuration file already exists at path %s" [p]))
    else ret nil_error
  else ret nil_error.

Definition validateRemoteConfigPathDoesNotExist (fc : fluxForCluster)
  : M (option error) :=
  if IsSelfManaged (SpecCluster (clusterSpec fc)) then
    match gitTools (fcFlux fc) with
    | None => panic
    | Some gt =>
        if Provider gt then
          r <- call (PathExists (owner fc) (repository fc) (branch fc) (path fc)) ;;
          match r_err r with
          | Some err =>
              ret (Some (Errorf_v "failed validating remote flux config path: %v" [] err))
          | None =>
              if r_bool r then
                ret (Some (Errorf "flux path %s already exists in remote repository"
                                  [path fc]))
              else ret nil_error
          end
        else ret nil_error
    end
  else ret nil_error.

(** *** Manifest generation *)

Definition initEksaWriter (fc : fluxForCluster)
  : M (option string * option error) :=
  let dir := eksaSystemDir fc in
  _ <- writerDir (fcFlux fc) ;;
  r <- call (WithDir dir) ;;
  let err := option_map (fun e => Errorf_v "creating %s directory: %v" [dir] e)
                        (r_err r) in
  onWriter (r_writer r) (fun w => call (CleanUpTemp w)) ;;;
  ret (r_writer r, err).

Definition generateClusterConfigFile (fc : fluxForCluster) (w : option string)
  : M (option error) :=
  m <- call MarshalClusterSpec ;;
  match r_err m with
  | Some err => ret (Some err)
  | None =>
      r <- onWriter w (fun h => call (Write h clusterConfigFileName (r_text m))) ;;
      match r_err r with
      | Some err =>
          ret (Some (Errorf_v "writing eks-a cluster config file into %s: %v"
                              [r_text r] err))
      | None => ret nil_error
      end
  end.

(** [templater.New(w).WriteToFile(...)]. *)
Definition templater_WriteToFile (w : option string) (t : Template)
           (values : list (string * string)) (fileName : string) : M Response :=
  onWriter w (fun h => call (WriteToFile h t values fileName)).

Definition generateEksaKustomizeFile (fc : fluxForCluster) (w : option string)
  : M (option error) :=
  let values := [("ConfigFileName", clusterConfigFileName)] in
  r <- templater_WriteToFile w eksaKustomizeContent values kustomizeFileName ;;
  match r_err r with
  | Some err =>
      ret (Some (Errorf_v "writing eks-a kustomization manifest file into %s: %v"
                          [r_text r] err))
  | None => ret nil_error
  end.

Definition writeEksaSystemFiles (fc : fluxForCluster) : M (option error) :=
  match datacenterConfig fc, machineConfigs fc with
  | None, None => ret nil_error
  | _, _ =>
      logger_V 3 "Generating eks-a cluster manifest files..." ;;;
      we <- initEksaWriter fc ;;
      match snd we with
      | Some err => ret (Some err)
      | None =>
          logger_V 4 "Generating eks-a cluster config file..." ;;;
          check generateClusterConfigFile fc (fst we) ;;
          logger_V 4 "Generating eks-a kustomization file..." ;;;
          generateEksaKustomizeFile fc (fst we)
      end
  end.

Definition initFluxWriter (fc : fluxForCluster)
  : M (option string * option error) :=
  _ <- writerDir (fcFlux fc) ;;
  r <- call (WithDir (fluxSystemDir fc)) ;;
  let err := option_map (fun e => Errorf_v "creating %s directory: %v"
                                           [fluxSystemDir fc] e)
                        (r_err r) in
  onWriter (r_writer r) (fun w => call (CleanUpTemp w)) ;;;
  ret (r_writer r, err).

Definition generateFluxKustomizeFile (fc : fluxForCluster) (w : option string)
  : M (option error) :=
  let values := [("Namespace", namespace fc)] in
  r <- templater_WriteToFile w fluxKustomizeContent values kustomizeFileName ;;
  match r_err r with
  | Some err =>
      ret (Some (Errorf_v "creating flux-system kustomization manifest file into %s: %v"
                          [r_text r] err))
  | None => ret nil_error
  end.

Definition generateFluxSyncFile (f : Flux) (w : option string) : M (option error) :=
  r <- templater_WriteToFile w fluxSyncContent [] fluxSyncFileName ;;
  match r_err r with
  | Some err =>
      ret (Some (Errorf_v "creating flux-system sync manifest file into %s: %v"
                          [r_text r] err))
  | None => ret nil_error
  end.

Definition generateFluxPatchFile (fc : fluxForCluster) (w : option string)
  : M (option error) :=
  let bundle := VersionsBundle (clusterSpec fc) in
  let values :=
    [("Namespace", namespace fc);
     ("SourceControllerImage", SourceController bundle);
     ("KustomizeControllerImage", KustomizeController bundle);
     ("HelmControllerImage", HelmController bundle);
     ("NotificationControllerImage", NotificationController bundle)] in
  r <- templater_WriteToFile w fluxPatchContent values fluxPatchFileName ;;
  match r_err r with
  | Some err =>
      ret (Some (Errorf_v "creating flux-system patch manifest file into %s: %v"
                          [r_text r] err))
  | None => ret nil_error
  end.

Definition writeFluxSystemFiles (fc : fluxForCluster) : M (option error) :=
  logger_V 3 "Generating flux custom manifest files..." ;;;
  we <- initFluxWriter fc ;;
  match snd we with
  | Some err => ret (Some err)
  | None =>
      logger_V 4 "Generating flux-system kustomization file..." ;;;
      check generateFluxKustomizeFile fc (fst we) ;;
      logger_V 4 "Generating flux-system sync file..." ;;;
      check generateFluxSyncFile (fcFlux fc) (fst we) ;;
      logger_V 3 "Generating flux-system patch file..." ;;;
      check generateFluxPatchFile fc (fst we) ;;
      ret nil_error
  end.

Definition commitFluxAndClusterConfigToGit (fc : fluxForCluster) : M (option error) :=
  logger_Info "Adding cluster configuration files to Git" ;;;
  let config := SpecFluxConfig (clusterSpec fc) in
  check validateLocalConfigPathDoesNotExist fc
    wrapping ConfigVersionControlFailedError ;;
  check writeEksaSystemFiles fc
    wrapping ConfigVersionControlFailedError ;;
  check (if IsSelfManaged (SpecCluster (clusterSpec fc))
         then writeFluxSystemFiles fc
         else logger_V 3 "Skipping flux custom manifest files" ;;; ret nil_error)
    wrapping ConfigVersionControlFailedError ;;
  let p := GoPath.Dir (ClusterConfigPath config) in
  check gitClient (fcFlux fc) (Add p)
    wrapping (fun err => ConfigVersionControlFailedError
                           (Errorf_v "adding %s to git: %v" [p] err)) ;;
  check pushToRemoteRepo (fcFlux fc) p initialClusterconfigCommitMessage ;;
  logger_V 3 "Finished pushing cluster config and flux custom manifest files to git" ;;;
  ret nil_error.

(** *** Toolkit installation *)

Definition uninstallGitOpsToolkits (f : Flux) (cluster : TypesCluster)
           (clusterSpec : Spec) : M (option error) :=
  Retry (retrier f) (call_err Uninstall).

Definition installGitOpsGithub (f : Flux) (cluster : TypesCluster)
           (fc : fluxForCluster) (clusterSpec : Spec) : M (option error) :=
  check setupProviderRepository fc ;;
  check commitFluxAndClusterConfigToGit fc ;;
  if negb (ExistingManagement cluster) then
    err <- Retry (retrier f) (call_err BootstrapGithub) ;;
    match err with
    | Some e =>
        uninstallErr <- uninstallGitOpsToolkits f cluster clusterSpec ;;
        match uninstallErr with
        | Some _ => logger_Info "Could not uninstall flux components"
        | None => ret tt
        end ;;;
        ret (Some e)
    | None => ret nil_error
    end
  else ret nil_error.

Definition installGitOpsGenericGit (f : Flux) (cluster : TypesCluster)
           (fc : fluxForCluster) (clusterSpec : Spec) : M (option error) :=
  check clone fc ;;
  check commitFluxAndClusterConfigToGit fc ;;
  if negb (ExistingManagement cluster) then
    err <- Retry (retrier f) (call_err BootstrapGit) ;;
    match err with
    | Some e =>
        uninstallErr <- uninstallGitOpsToolkits f cluster clusterSpec ;;
        match uninstallErr with
        | Some _ => logger_Info "Could not uninstall flux components"
        | None => ret tt
        end ;;;
        ret (Some e)
    | None => ret nil_error
    end
  else ret nil_error.

Definition mkFluxForCluster (f : Flux) (clusterSpec : Spec)
           (dc : option DatacenterConfig) (mcs : option (list MachineConfig))
  : fluxForCluster :=
  {| fcFlux := f; clusterSpec := clusterSpec;
     datacenterConfig := dc; machineConfigs := mcs |}.

(** The two provider branches of [InstallGitOps]. *)
Definition githubBranch (f : Flux) (cluster : TypesCluster)
           (fc : fluxForCluster) (clusterSpec : Spec) : M (option error) :=
  match Github (SpecFluxConfig clusterSpec) with
  | Some _ => installGitOpsGithub f cluster fc clusterSpec
  | None => ret nil_error
  end.

Definition genericGitBranch (f : Flux) (cluster : TypesCluster)
           (fc : fluxForCluster) (clusterSpec : Spec) : M (option error) :=
  match Git (SpecFluxConfig clusterSpec) with
  | Some _ => installGitOpsGenericGit f cluster fc clusterSpec
  | None => ret nil_error
  end.

Definition InstallGitOps (f : Flux) (cluster : TypesCluster) (clusterSpec : Spec)
           (dc : option DatacenterConfig) (mcs : option (list MachineConfig))
  : M (option error) :=
  if shouldSkipFlux f then
    logger_Info "GitOps field not specified, bootstrap flux skipped" ;;;
    ret nil_error
  else
    let fc := mkFluxForCluster f clusterSpec dc mcs in
    check githubBranch f cluster fc clusterSpec
      wrapping (fun err => Errorf_v "installing GitHub gitops: %v" [] err) ;;
    check genericGitBranch f cluster fc clusterSpec
      wrapping (fun err => Errorf_v "installing generic git gitops: %v" [] err) ;;
    logger_V 3 "pulling from remote after Flux Bootstrap to ensure configuration files in local git repository are in sync" ;;;
    err <- Retry (retrier f) (gitClient f (Pull (branch fc))) ;;
    match err with
    | Some e =>
        logger_Error e "error when pulling from remote repository after Flux Bootstrap; ensure local repository is up-to-date with remote (git pull)"
    | None => ret tt
    end ;;;
    ret nil_error.

(** *** The other public operations *)

Definition ForceReconcileGitRepo (f : Flux) (cluster : TypesCluster)
           (clusterSpec : Spec) : M (option error) :=
  if shouldSkipFlux f then
    logger_Info "GitOps not configured, force reconcile flux git repo skipped" ;;;
    ret nil_error
  else
    let fc := mkFluxForCluster f clusterSpec None None in
    call_err (FluxForceReconcileGitRepo (namespace fc)).

Definition PauseGitOpsKustomization (f : Flux) (cluster : TypesCluster)
           (clusterSpec : Spec) : M (option error) :=
  if shouldSkipFlux f then
    logger_Info "GitOps field not specified, pause flux kustomization skipped" ;;;
    ret nil_error
  else
    logger_V 3 "pause reconciliation of all Kustomization" ;;;
    Retry (retrier f) (call_err SuspendKustomization).

Definition ResumeGitOpsKustomization (f : Flux) (cluster : TypesCluster)
           (clusterSpec : Spec) : M (option error) :=
  if shouldSkipFlux f then
    logger_Info "GitOps field not specified, resume flux kustomization skipped" ;;;
    ret nil_error
  else
    logger_V 3 "resume reconciliation of all Kustomization" ;;;
    Retry (retrier f) (call_err ResumeKustomization).

Definition UpdateGitEksaSpec (f : Flux) (clusterSpec : Spec)
           (dc : option DatacenterConfig) (mcs : option (list MachineConfig))
  : M (option error) :=
  if shouldSkipFlux f then
    logger_Info "GitOps field not specified, update git repo skipped" ;;;
    ret nil_error
  else
    let fc := mkFluxForCluster f clusterSpec dc mcs in
    check syncGitRepo fc ;;
    check writeEksaSystemFiles fc ;;
    let path := eksaSystemDir fc in
    check gitClient f (Add path)
      wrapping (fun err => ConfigVersionControlFailedError
                             (Errorf_v "adding %s to git: %v" [path] err)) ;;
    check pushToRemoteRepo f path updateClusterconfigCommitMessage ;;
    logger_V 3 "Finished pushing updated cluster config file to git" ;;;
    ret nil_error.

(** [Validations] returns closures; each one is a computation here. *)
Definition Validations (f : Flux) (clusterSpec : Spec) : list (M ValidationResult) :=
  if shouldSkipFlux f then []
  else
    let fc := mkFluxForCluster f clusterSpec None None in
    [ e <- validateRemoteConfigPathDoesNotExist fc ;;
      ret {| vName := "Flux path";
             vRemediation := "Please provide a different path or different cluster name";
             vErr := e |} ].

(** The path [CleanupGitRepo] removes. *)
Definition cleanupPath (fc : fluxForCluster) : string :=
  if IsManaged (SpecCluster (clusterSpec fc)) then eksaSystemDir fc else path fc.

Definition CleanupGitRepo (f : Flux) (clusterSpec : Spec) : M (option error) :=
  if shouldSkipFlux f then
    logger_Info "GitOps field not specified, clean up git repo skipped" ;;;
    ret nil_error
  else
    let fc := mkFluxForCluster f clusterSpec None None in
    check syncGitRepo fc ;;
    let p := cleanupPath fc in
    dir <- writerDir f ;;
    ex <- call (FileExists (GoPath.Join [dir; p])) ;;
    if negb (r_bool ex) then
      logger_V 3 "cluster dir does not exist in git, skip clean up" ;;;
      ret nil_error
    else
      check gitClient f (Remove p)
        wrapping (fun err => ConfigVersionControlFailedError
                               (Errorf_v "removing %s in git: %v" [p] err)) ;;
      check pushToRemoteRepo f p deleteClusterconfigCommitMessage ;;
      logger_V 3 "Finished cleaning up cluster files in git" ;;;
      ret nil_error.

End FluxPackage.

(* ================================================================== *)
(** ** Vocabulary of the statements *)

Definition count_calls (p : Call -> bool) (l : list Call) : nat :=
  length (filter p l).

Definition is_CreateRepo (c : Call) : bool :=
  match c with CreateRepo _ => true | _ => false end.
Definition is_Clone (c : Call) : bool :=
  match c with Clone => true | _ => false end.
Definition is_Uninstall (c : Call) : bool :=
  match c with Uninstall => true | _ => false end.
Definition is_Remove (c : Call) : bool :=
  match c with Remove _ => true | _ => false end.
Definition is_Commit (c : Call) : bool :=
  match c with Commit _ => true | _ => false end.
Definition is_Push (c : Call) : bool :=
  match c with Push => true | _ => false end.

(** The manifests of the toolkit ([flux-system]). *)
Definition is_toolkit_write (c : Call) : bool :=
  match c with
  | WriteToFile _ fluxKustomizeContent _ _
  | WriteToFile _ fluxSyncContent _ _
  | WriteToFile _ fluxPatchContent _ _ => true
  | _ => false
  end.

(** The calls of [initializeLocalRepository] on the branch [b]. *)
Definition initSequence (b : string) : list Call :=
  [Init; Commit "initializing repository"; GitBranch b].

(** The errors [initializeLocalRepository] returns. *)
Inductive initFailure : error -> Prop :=
| initFailure_init e : initFailure (Errorf_w "could not initialize repo: %w" [] e)
| initFailure_commit e : initFailure (Errorf_v "initializing repository: %v" [] e)
| initFailure_branch e : initFailure (Errorf_v "creating branch: %v" [] e).

(** [m] only appends calls, and every call it appends satisfies [P]. *)
Definition adds_only {A} (P : Call -> Prop) (m : M A) : Prop :=
  forall s, exists l, calls (snd (m s)) = calls s ++ l /\ Forall P l.

(** [m] leaves the log alone. *)
Definition silent {A} (m : M A) : Prop :=
  forall s, logs (snd (m s)) = logs s.

(** The state after the calls [l]. *)
Definition after (s : State) (l : list Call) : State :=
  {| calls := calls s ++ l; logs := logs s |}.

(** The state after the log lines [l]. *)
Definition logged (s : State) (l : list LogEntry) : State :=
  {| calls := calls s; logs := logs s ++ l |}.

(** The two install paths of [InstallGitOps]. *)
Inductive InstallPath : Type := Hosted | Generic.

Definition installPath (env : Env) (p : InstallPath) :=
  match p with
  | Hosted => installGitOpsGithub env
  | Generic => installGitOpsGenericGit env
  end.

Definition provision (env : Env) (p : InstallPath) :=
  match p with
  | Hosted => setupProviderRepository env
  | Generic => clone env
  end.

Definition bootstrapCall (p : InstallPath) : Call :=
  match p with
  | Hosted => BootstrapGithub
  | Generic => BootstrapGit
  end.

(** The calls of the [eksa-system] manifests. *)
Definition eksa_call (c : Call) : Prop :=
  match c with
  | WithDir _ | CleanUpTemp _ | MarshalClusterSpec | Write _ _ _
  | WriteToFile _ eksaKustomizeContent _ _ => True
  | _ => False
  end.


(** [l] is an initial part of [full]. *)
Definition is_prefix (l full : list Call) : Prop :=
  exists rest, full = l ++ rest.

Definition is_Bootstrap (c : Call) : bool :=
  match c with BootstrapGithub | BootstrapGit => true | _ => false end.

Definition uninstallFailedMessage := "Could not uninstall flux components".
Definition pullingMessage :=
  "pulling from remote after Flux Bootstrap to ensure configuration files in local git repository are in sync".
Definition pullFailedMessage :=
  "error when pulling from remote repository after Flux Bootstrap; ensure local repository is up-to-date with remote (git pull)".

(** From the state [s], the first call [m] makes is [c]. *)
Definition starts_with {A} (c : Call) (m : M A) (s : State) : Prop :=
  exists l, calls (snd (m s)) = calls s ++ c :: l.

Definition any_call (c : Call) : Prop := True.

(** The manifests of the cluster configuration ([eksa-system]). *)
Definition is_eksa_write (c : Call) : bool :=
  match c with
  | Write _ _ _ | WriteToFile _ eksaKustomizeContent _ _ => true
  | _ => false
  end.

(** The writer calls of [writeEksaSystemFiles] when all of them succeed:
    [dir] is the directory asked for, [w] the writer obtained, [content]
    the marshalled cluster specification. *)
Definition eksaManifestCalls (dir w content : string) : list Call :=
  [ WithDir dir;
    CleanUpTemp w;
    MarshalClusterSpec;
    Write w clusterConfigFileName content;
    WriteToFile w eksaKustomizeContent
                [("ConfigFileName", clusterConfigFileName)] kustomizeFileName ].

(** The writer calls of [writeFluxSystemFiles] when all of them succeed. *)
Definition toolkitManifestCalls (dir w ns : string) (b : FluxBundle) : list Call :=
  [ WithDir dir;
    CleanUpTemp w;
    WriteToFile w fluxKustomizeContent [("Namespace", ns)] kustomizeFileName;
    WriteToFile w fluxSyncContent [] fluxSyncFileName;
    WriteToFile w fluxPatchContent
                [("Namespace", ns);
                 ("SourceControllerImage", SourceController b);
                 ("KustomizeControllerImage", KustomizeController b);
                 ("HelmControllerImage", HelmController b);
                 ("NotificationControllerImage", NotificationController b)]
                fluxPatchFileName ].

Definition no_cleanup_call (c : Call) : Prop :=
  is_Remove c = false /\ is_Commit c = false /\ is_Push c = false.

(** Every error [m] returns satisfies [Q]. *)
Definition fails_only (Q : error -> Prop) (m : M (option error)) : Prop :=
  forall s e s', m s = (Ok (Some e), s') -> Q e.

(** An error built by [fmt.Errorf] with the verb [%v]: the type of its
    cause is lost to [errors.As] and to type assertions. *)
Definition is_flattened (e : error) : bool :=
  match e with
  | Errorf_v _ _ _ => true
  | _ => false
  end.

Definition is_Pull (c : Call) : bool :=
  match c with Pull _ => true | _ => false end.

Definition is_git_call (c : Call) : bool :=
  match c with
  | Clone | Init | GitBranch _ | Add _ | Remove _ | Commit _ | Push | Pull _ => true
  | _ => false
  end.

(** The calls on the flux executable ([flux.Client]). *)
Definition is_flux_call (c : Call) : bool :=
  match c with
  | BootstrapGithub | BootstrapGit | Uninstall | SuspendKustomization
  | ResumeKustomization | FluxForceReconcileGitRepo _ => true
  | _ => false
  end.

Definition is_Init (c : Call) : bool :=
  match c with Init => true | _ => false end.

Definition cloningMessage := "Cloning remote repository".
Definition branchingMessage := "Creating a new branch".

(** Calls that [UpdateGitEksaSpec] and [syncGitRepo] never make. *)
Definition git_update_call (c : Call) : Prop :=
  is_toolkit_write c = false /\ is_Pull c = false /\ is_flux_call c = false.

Definition pauseMessage := "pause reconciliation of all Kustomization".
Definition resumeMessage := "resume reconciliation of all Kustomization".
Definition addingMessage := "Adding cluster configuration files to Git".

(** Runs the validations one after the other. *)
Fixpoint runValidations (vs : list (M ValidationResult)) : M (list ValidationResult) :=
  match vs with
  | [] => ret []
  | v :: rest => r <- v ;; rs <- runValidations rest ;; ret (r :: rs)
  end.


(** The manifest generation of [commitFluxAndClusterConfigToGit]: its steps
    before the staging, the check of the local path and the two groups of
    manifests. *)
Definition generateManifests (env : Env) (fc : fluxForCluster) : M (option error) :=
  logger_Info "Adding cluster configuration files to Git" ;;;
  check validateLocalConfigPathDoesNotExist env fc
    wrapping ConfigVersionControlFailedError ;;
  check writeEksaSystemFiles env fc
    wrapping ConfigVersionControlFailedError ;;
  check (if IsSelfManaged (SpecCluster (clusterSpec fc))
         then writeFluxSystemFiles env fc
         else logger_V 3 "Skipping flux custom manifest files" ;;; ret nil_error)
    wrapping ConfigVersionControlFailedError ;;
  ret nil_error.

(** What [commitFluxAndClusterConfigToGit] does with the manifests
    generated: add, commit and push. *)
Definition stageAndPush (env : Env) (fc : fluxForCluster) : M (option error) :=
  let p := GoPath.Dir (ClusterConfigPath (SpecFluxConfig (clusterSpec fc))) in
  check gitClient env (fcFlux fc) (Add p)
    wrapping (fun err => ConfigVersionControlFailedError
                           (Errorf_v "adding %s to git: %v" [p] err)) ;;
  check pushToRemoteRepo env (fcFlux fc) p initialClusterconfigCommitMessage ;;
  logger_V 3 "Finished pushing cluster config and flux custom manifest files to git" ;;;
  ret nil_error.

(* ================================================================== *)
(** ** Concrete scenarios *)

Module Scenario.

Definition answer_ok : Response :=
  {| r_err := None; r_repo := None; r_bool := false;
     r_writer := Some "w"; r_text := "" |}.

Definition answer_fail (msg : string) : Response :=
  {| r_err := Some (Opaque msg); r_repo := None; r_bool := false;
     r_writer := None; r_text := "" |}.

Definition answer_bool (b : bool) : Response :=
  {| r_err := None; r_repo := None; r_bool := b;
     r_writer := None; r_text := "" |}.

Definition answer_writer (d : string) : Response :=
  {| r_err := None; r_repo := None; r_bool := false;
     r_writer := Some d; r_text := d |}.

Definition answer_repo (n : string) : Response :=
  {| r_err := None; r_repo := Some {| repoName := n |}; r_bool := false;
     r_writer := None; r_text := "" |}.

Definition answer_err (e : error) : Response :=
  {| r_err := Some e; r_repo := None; r_bool := false;
     r_writer := None; r_text := "" |}.

Definition tools : GitTools := {| Provider := true; WriterDir := "/tmp/fleet" |}.

Definition flux : Flux := NewFlux (Some tools).
Definition unconfigured : Flux := NewFlux None.

Definition hosted : FluxConfig :=
  {| SystemNamespace := "flux-system";
     ClusterConfigPath := "clusters/mgmt";
     Branch := "main";
     Github := Some {| Owner := "octo"; Repository := "fleet"; Personal := true |};
     Git := None |}.

Definition generic : FluxConfig :=
  {| SystemNamespace := "flux-system";
     ClusterConfigPath := "clusters/mgmt";
     Branch := "main";
     Github := None;
     Git := Some {| RepositoryUrl := "ssh://git@example.com/octo/fleet.git" |} |}.

Definition both : FluxConfig :=
  {| SystemNamespace := "flux-system";
     ClusterConfigPath := "clusters/mgmt";
     Branch := "main";
     Github := Github hosted;
     Git := Git generic |}.

Definition bundle : FluxBundle :=
  {| SourceController := "source-controller:v1";
     KustomizeController := "kustomize-controller:v1";
     HelmController := "helm-controller:v1";
     NotificationController := "notification-controller:v1" |}.

Definition mgmtSpec (cfg : FluxConfig) : Spec :=
  {| SpecCluster := {| Name := "mgmt"; Managed := false |};
     SpecFluxConfig := cfg;
     VersionsBundle := bundle |}.

Definition workloadSpec (cfg : FluxConfig) : Spec :=
  {| SpecCluster := {| Name := "w01"; Managed := true |};
     SpecFluxConfig := cfg;
     VersionsBundle := bundle |}.

Definition newCluster : TypesCluster := {| ExistingManagement := false |}.
Definition existingCluster : TypesCluster := {| ExistingManagement := true |}.

Definition dc : option DatacenterConfig := Some {| datacenterKind := "docker" |}.
Definition mcs : option (list MachineConfig) := Some [ {| machineName := "cp" |} ].

Definition start : State := {| calls := []; logs := [] |}.

(** Every call succeeds; the remote repository does not exist, nothing
    exists on the local disk. *)
Definition env_fresh : Env :=
  fun _ c =>
    match c with
    | WithDir d => answer_writer d
    | _ => answer_ok
    end.

(** As [env_fresh], but the first [CreateRepo] fails. *)
Definition env_create_flaky : Env :=
  fun h c =>
    match c with
    | CreateRepo _ =>
        if Nat.eqb (count_calls is_CreateRepo h) 0 then answer_fail "502" else answer_ok
    | _ => env_fresh h c
    end.

(** The remote repository exists and is empty. *)
Definition env_empty_remote : Env :=
  fun h c =>
    match c with
    | GetRepo => answer_repo "fleet"
    | Clone => answer_err (RepositoryIsEmptyError "fleet")
    | _ => env_fresh h c
    end.

(** The remote repository exists; cloning it is refused. *)
Definition env_clone_denied : Env :=
  fun h c =>
    match c with
    | GetRepo => answer_repo "fleet"
    | Clone => answer_fail "permission denied"
    | _ => env_fresh h c
    end.

(** The toolkit can neither be bootstrapped nor uninstalled. *)
Definition env_toolkit_down : Env :=
  fun h c =>
    match c with
    | BootstrapGithub | BootstrapGit => answer_fail "bootstrap timed out"
    | Uninstall => answer_fail "uninstall timed out"
    | _ => env_fresh h c
    end.

(** A working copy is checked out and holds the cluster's files; the
    remote repository exists. *)
Definition env_checked_out : Env :=
  fun h c =>
    match c with
    | FileExists _ => answer_bool true
    | GetRepo => answer_repo "fleet"
    | _ => env_fresh h c
    end.

(** A working copy is checked out but holds no file of the cluster. *)
Definition env_no_cluster_dir : Env :=
  fun h c =>
    match c with
    | FileExists p => answer_bool (p =? "/tmp/fleet/.git")
    | _ => env_fresh h c
    end.

(** Pushing and pulling always fail. *)
Definition env_offline : Env :=
  fun h c =>
    match c with
    | Push | Pull _ => answer_fail "network unreachable"
    | _ => env_fresh h c
    end.

(** Pulling always fails; everything else works. *)
Definition env_pull_down : Env :=
  fun h c =>
    match c with
    | Pull _ => answer_fail "network unreachable"
    | _ => env_fresh h c
    end.

(** The states a generic install goes through while the toolkit is down. *)
Definition generic_fc : fluxForCluster :=
  mkFluxForCluster flux (mgmtSpec generic) dc mcs.

Definition toolkit_down_cloned : State :=
  Eval vm_compute in snd (clone env_toolkit_down generic_fc start).

Definition toolkit_down_committed : State :=
  Eval vm_compute in
    snd (commitFluxAndClusterConfigToGit env_toolkit_down generic_fc
                                         toolkit_down_cloned).

Definition toolkit_down_bootstrapped : State :=
  Eval vm_compute in after toolkit_down_committed (repeat BootstrapGit 5).

(** A hosted install of a workload cluster on an existing management
    cluster, with pulls failing: the state after the provider branches. *)
Definition pull_down_installed : State :=
  Eval vm_compute in
    snd (githubBranch env_pull_down flux existingCluster
           (mkFluxForCluster flux (workloadSpec hosted) dc mcs)
           (workloadSpec hosted) start).

(** Both providers configured: the state after the hosted path. *)
Definition both_hosted_done : State :=
  Eval vm_compute in
    snd (installGitOpsGithub env_fresh flux newCluster
           (mkFluxForCluster flux (workloadSpec both) dc mcs)
           (workloadSpec both) start).

(** Installing a management cluster while the remote cannot be pushed to. *)
Definition offline_commit_error : error :=
  ConfigVersionControlFailedError
    (Errorf_v "pushing %s to git: %v" ["clusters"] (Opaque "network unreachable")).

Definition offline_committed : State :=
  Eval vm_compute in
    snd (commitFluxAndClusterConfigToGit env_offline
           (mkFluxForCluster flux (mgmtSpec hosted) dc mcs) start).

Definition offline_installed : State :=
  Eval vm_compute in
    snd (InstallGitOps env_offline flux newCluster (mgmtSpec hosted) dc mcs start).

(** The provider rejects every request. *)
Definition env_provider_down : Env :=
  fun h c =>
    match c with
    | GetRepo | CreateRepo _ | PathExists _ _ _ _ => answer_fail "401"
    | _ => env_fresh h c
    end.

(** The existing repository, cloned. *)
Definition checked_out_cloned : State :=
  Eval vm_compute in
    snd (clone env_checked_out (mkFluxForCluster flux (mgmtSpec hosted) dc mcs)
               (after start [GetRepo])).

(** An update of the management cluster's configuration. *)
Definition checked_out_updated : State :=
  Eval vm_compute in
    snd (UpdateGitEksaSpec env_checked_out flux (mgmtSpec hosted) dc mcs start).

(** A flux configuration that names no provider. *)
Definition no_provider : FluxConfig :=
  {| SystemNamespace := "flux-system";
     ClusterConfigPath := "clusters/mgmt";
     Branch := "main";
     Github := None;
     Git := None |}.

(** No directory can be created: [WithDir] fails and returns no writer. *)
Definition env_disk_full : Env :=
  fun h c =>
    match c with
    | WithDir _ => answer_fail "no space left on device"
    | _ => env_fresh h c
    end.

(** A generic install where everything works. *)
Definition fresh_cloned : State :=
  Eval vm_compute in snd (clone env_fresh generic_fc start).

Definition fresh_committed : State :=
  Eval vm_compute in
    snd (commitFluxAndClusterConfigToGit env_fresh generic_fc fresh_cloned).

(** The remote repository exists and is empty, and the local directory
    cannot be initialised. *)
Definition env_empty_remote_no_init : Env :=
  fun h c =>
    match c with
    | Init => answer_fail "read-only file system"
    | _ => env_empty_remote h c
    end.

(** A working copy holds the cluster's files, but removing them fails. *)
Definition env_remove_denied : Env :=
  fun h c =>
    match c with
    | Remove _ => answer_fail "index.lock exists"
    | _ => env_checked_out h c
    end.

(** The first commit of a workload cluster: the state after the manifests
    are generated. *)
Definition workload_generated : State :=
  Eval vm_compute in
    snd (generateManifests env_fresh
           (mkFluxForCluster flux (workloadSpec hosted) dc mcs) start).

End Scenario.


(* ================================================================== *)
(** ** The logger package *)

(** The package-level state of [pkg/logger]: the logger [l], the
    [sync.Once] guarding [set], and the output file path.  The type of the
    loggers ([logr.Logger]) is a parameter. *)
Module Logger.

Record Package (L : Type) := {
  l : L;
  once : bool;
  outputFilePath : string
}.
Arguments l {L}.
Arguments once {L}.
Arguments outputFilePath {L}.

Definition maxLogging : nat := 9.

(** The state at start-up: [l] is [logr.Discard()], nothing was set. *)
Definition initial {L} (discard : L) : Package L :=
  {| l := discard; once := false; outputFilePath := "" |}.

(** [set]: [once.Do] runs its body on the first call only. *)
Definition set {L} (logger : L) (out : string) (p : Package L) : Package L :=
  if once p then p
  else {| l := logger; once := true; outputFilePath := out |}.

Definition GetOutputFilePath {L} (p : Package L) : string := outputFilePath p.

Definition Get {L} (p : Package L) : L := l p.

Definition MaxLoggingLevel : nat := maxLogging.

(** A series of [set] calls, in order. *)
Definition setAll {L} (configs : list (L * string)) (p : Package L) : Package L :=
  fold_left (fun st c => set (fst c) (snd c) st) configs p.

End Logger.

(* ================================================================== *)
(** ** The monad and the retrier *)

Unset Implicit Arguments.

Section MonadFacts.

Variable env : Env.

Lemma bind_Ok_inv {A B} (m : M A) (k : A -> M B) s b s' :
  bind m k s = (Ok b, s') ->
  exists a s1, m s = (Ok a, s1) /\ k a s1 = (Ok b, s').
Proof.
  unfold bind. destruct (m s) as [[a|] s1]; intro H.
  - exists a, s1. split; [reflexivity | exact H].
  - discriminate.
Qed.

Lemma or_return_nil_inv m w k s s' :
  or_return m w k s = (Ok None, s') ->
  exists s1, m s = (Ok None, s1) /\ k s1 = (Ok None, s').
Proof.
  unfold or_return. intro H. apply bind_Ok_inv in H.
  destruct H as (e & s1 & Hm & Hk). destruct e as [err|].
  - discriminate.
  - exists s1. split; assumption.
Qed.

Lemma bind_eq {A B} (m : M A) (k : A -> M B) s a s1 :
  m s = (Ok a, s1) -> bind m k s = k a s1.
Proof. unfold bind. intros ->. reflexivity. Qed.

Lemma or_return_nil m w k s s1 :
  m s = (Ok None, s1) -> or_return m w k s = k s1.
Proof. unfold or_return. intro H. rewrite (bind_eq _ _ _ _ _ H). reflexivity. Qed.

Lemma or_return_err m w k s s1 e :
  m s = (Ok (Some e), s1) -> or_return m w k s = (Ok (Some (w e)), s1).
Proof. unfold or_return. intro H. rewrite (bind_eq _ _ _ _ _ H). reflexivity. Qed.

Lemma after_nil s : after s [] = s.
Proof. destruct s. unfold after. simpl. rewrite app_nil_r. reflexivity. Qed.

Lemma after_after s l1 l2 : after (after s l1) l2 = after s (l1 ++ l2).
Proof. unfold after. simpl. rewrite app_assoc. reflexivity. Qed.

Lemma call_eq c s : call env c s = (Ok (env (calls s) c), after s [c]).
Proof. reflexivity. Qed.

Lemma repeat_snoc {A} (x : A) n : repeat x n ++ [x] = repeat x (S n).
Proof.
  induction n as [|n IH]; simpl; [reflexivity|]. rewrite IH. reflexivity.
Qed.

(** A retried single call [c]: it is made [k] times in a row, between
    one and [more + 1]; every attempt but the last failed; the result is
    the answer to the last; the last failed only when all attempts are
    used up. *)
Lemma retry_call {X} (g : Response -> X) (errOf : X -> option error) c :
  forall more s,
  exists k,
    1 <= k <= S more /\
    retry_loop errOf more (r <- call env c ;; ret (g r)) s
    = (Ok (g (env (calls s ++ repeat c (k - 1)) c)), after s (repeat c k)) /\
    (errOf (g (env (calls s ++ repeat c (k - 1)) c)) <> None -> k = S more) /\
    (forall j, j < k - 1 -> errOf (g (env (calls s ++ repeat c j) c)) <> None).
Proof.
  induction more as [|more IH]; intro s.
  - exists 1. simpl. rewrite app_nil_r.
    split; [lia|]. split.
    + unfold bind, ret. rewrite call_eq.
      destruct (errOf (g (env (calls s) c))); reflexivity.
    + split; [reflexivity | intros j Hj; lia].
  - simpl retry_loop. unfold bind at 1. unfold bind at 1. rewrite call_eq.
    unfold ret at 1.
    destruct (errOf (g (env (calls s) c))) eqn:E.
    + destruct (IH (after s [c])) as (k & Hk & Heq & Hlast & Hprev).
      exists (S k). simpl calls in *.
      assert (Hshift : forall n, (calls s ++ [c]) ++ repeat c n
                                 = calls s ++ repeat c (S n)).
      { intro n. rewrite <- app_assoc. reflexivity. }
      rewrite Hshift in Heq, Hlast.
      replace (S k - 1) with (S (k - 1)) by lia.
      split; [lia|]. split.
      * rewrite Heq. rewrite after_after. reflexivity.
      * split.
        -- intro H. apply Hlast in H. lia.
        -- intros j Hj. destruct j as [|j].
           ++ simpl. rewrite app_nil_r. rewrite E. discriminate.
           ++ rewrite <- Hshift. apply Hprev. lia.
    + exists 1. simpl. rewrite app_nil_r. split; [lia|]. split.
      * reflexivity.
      * split; [intro H; rewrite E in H; congruence | intros j Hj; lia].
Qed.

End MonadFacts.

(* ================================================================== *)
(** ** Which calls an operation can make *)

Section FootprintRules.

Variable env : Env.

Lemma adds_ret {A} P (a : A) : adds_only P (ret a).
Proof. intro s. exists []. simpl. rewrite app_nil_r. auto. Qed.

Lemma adds_panic {A} P : adds_only P (@panic A).
Proof. intro s. exists []. simpl. rewrite app_nil_r. auto. Qed.

Lemma adds_log P e : adds_only P (log e).
Proof. intro s. exists []. simpl. rewrite app_nil_r. auto. Qed.

Lemma adds_call (P : Call -> Prop) c : P c -> adds_only P (call env c).
Proof. intros H s. exists [c]. simpl. auto. Qed.

Lemma adds_bind {A B} P (m : M A) (k : A -> M B) :
  adds_only P m -> (forall a, adds_only P (k a)) -> adds_only P (bind m k).
Proof.
  intros Hm Hk s. unfold bind.
  destruct (Hm s) as (l1 & E1 & F1).
  destruct (m s) as [[a|] s1]; simpl in E1.
  - destruct (Hk a s1) as (l2 & E2 & F2).
    exists (l1 ++ l2). rewrite E2, E1, app_assoc.
    split; [reflexivity | apply Forall_app; auto].
  - exists l1. simpl. auto.
Qed.

Lemma adds_or_return P m w k :
  adds_only P m -> adds_only P k -> adds_only P (or_return m w k).
Proof.
  intros Hm Hk. unfold or_return. apply adds_bind; [exact Hm|].
  intros [e|]; [apply adds_ret | exact Hk].
Qed.

Lemma adds_retry_loop {X} P (errOf : X -> option error) (fn : M X) more :
  adds_only P fn -> adds_only P (retry_loop errOf more fn).
Proof.
  intro Hfn. induction more as [|more IH]; simpl.
  - apply adds_bind; [exact Hfn|]. intro x.
    destruct (errOf x); apply adds_ret.
  - apply adds_bind; [exact Hfn|]. intro x.
    destruct (errOf x); [exact IH | apply adds_ret].
Qed.

Lemma adds_onWriter {A} P w (k : string -> M A) :
  (forall h, adds_only P (k h)) -> adds_only P (onWriter w k).
Proof. intro H. unfold onWriter. destruct w; [apply H | apply adds_panic]. Qed.

End FootprintRules.

(** Takes a computation apart along its binds and case distinctions. *)
Ltac footprint_step env :=
  match goal with
  | |- adds_only _ (ret _) => apply adds_ret
  | |- adds_only _ panic => apply adds_panic
  | |- adds_only _ (log _) => apply adds_log
  | |- adds_only _ (call _ _) =>
      apply (adds_call env); solve [assumption | reflexivity | exact I | auto]
  | |- adds_only _ (retry_loop _ _ _) => apply adds_retry_loop
  | |- adds_only _ (or_return _ _ _) => apply adds_or_return
  | |- adds_only _ (onWriter _ _) => apply adds_onWriter; intro
  | |- adds_only _ (bind _ _) => apply adds_bind; [|intro]
  | |- adds_only _ (match ?x with _ => _ end) => destruct x
  | |- adds_only _ (if ?b then _ else _) => destruct b
  | |- adds_only _ _ => solve [auto]
  end.

Ltac footprint env := repeat (footprint_step env).

Section Footprints.

Variable env : Env.

Lemma adds_gitClient P f c : P c -> adds_only P (gitClient env f c).
Proof. intro H. unfold gitClient, call_err. footprint env. Qed.

Lemma adds_pushToRemoteRepo P f path msg :
  P (Commit msg) -> P Push -> adds_only P (pushToRemoteRepo env f path msg).
Proof.
  intros H1 H2. unfold pushToRemoteRepo, Retry.
  pose proof (adds_gitClient P f _ H1). pose proof (adds_gitClient P f _ H2).
  footprint env.
Qed.

Lemma adds_clone P fc :
  P Clone -> P (GitBranch (branch fc)) -> adds_only P (clone env fc).
Proof.
  intros H1 H2. unfold clone, Retry, logger_V.
  pose proof (adds_gitClient P (fcFlux fc) _ H1).
  pose proof (adds_gitClient P (fcFlux fc) _ H2).
  footprint env.
Qed.

Lemma adds_syncGitRepo P fc :
  (forall p, P (FileExists p)) -> P Clone -> P (GitBranch (branch fc)) ->
  adds_only P (syncGitRepo env fc).
Proof.
  intros H0 H1 H2. unfold syncGitRepo, writerDir.
  pose proof (adds_clone P fc H1 H2).
  pose proof (adds_gitClient P (fcFlux fc) _ H2).
  footprint env.
Qed.

Lemma adds_validateLocal P fc :
  (forall p, P (FileExists p)) ->
  adds_only P (validateLocalConfigPathDoesNotExist env fc).
Proof.
  intro H0. unfold validateLocalConfigPathDoesNotExist, writerDir. footprint env.
Qed.

Lemma adds_writeEksaSystemFiles P fc :
  (forall c, eksa_call c -> P c) ->
  adds_only P (writeEksaSystemFiles env fc).
Proof.
  intro H. unfold writeEksaSystemFiles, initEksaWriter, writerDir,
    generateClusterConfigFile, generateEksaKustomizeFile,
    templater_WriteToFile, logger_V.
  assert (forall d, P (WithDir d)) by (intro; apply H; exact I).
  assert (forall w, P (CleanUpTemp w)) by (intro; apply H; exact I).
  assert (P MarshalClusterSpec) by (apply H; exact I).
  assert (forall w a b, P (Write w a b)) by (intros; apply H; exact I).
  assert (forall w a b, P (WriteToFile w eksaKustomizeContent a b))
    by (intros; apply H; exact I).
  footprint env.
Qed.

Lemma adds_writeFluxSystemFiles P fc :
  (forall c, P c) -> adds_only P (writeFluxSystemFiles env fc).
Proof.
  intro H. unfold writeFluxSystemFiles, initFluxWriter, writerDir,
    generateFluxKustomizeFile, generateFluxSyncFile, generateFluxPatchFile,
    templater_WriteToFile, logger_V.
  footprint env.
Qed.

End Footprints.

Section MoreFootprints.

Variable env : Env.

Lemma adds_grow {A} P (m : M A) s r s' :
  adds_only P m -> m s = (r, s') ->
  exists l, calls s' = calls s ++ l /\ Forall P l.
Proof.
  intros H E. destruct (H s) as (l & Hl & HP). rewrite E in Hl.
  exists l. split; assumption.
Qed.

Lemma adds_initializeLocalRepository P fc :
  (forall c, P c) -> adds_only P (initializeLocalRepository env fc).
Proof.
  intro H. unfold initializeLocalRepository.
  pose proof (fun c => adds_gitClient env P (fcFlux fc) c (H c)).
  footprint env.
Qed.

Lemma adds_gitProvider P f c : P c -> adds_only P (gitProvider env f c).
Proof. intro H. unfold gitProvider. footprint env. Qed.

Lemma adds_createRemoteRepository P fc :
  (forall c, P c) -> adds_only P (createRemoteRepository env fc).
Proof.
  intro H. unfold createRemoteRepository, Retry, logger_V.
  pose proof (fun c => adds_gitProvider P (fcFlux fc) c (H c)).
  footprint env.
Qed.

Lemma adds_commitFluxAndClusterConfigToGit P fc :
  (forall c, P c) -> adds_only P (commitFluxAndClusterConfigToGit env fc).
Proof.
  intro H. unfold commitFluxAndClusterConfigToGit, logger_Info, logger_V.
  pose proof (adds_validateLocal env P fc (fun p => H _)).
  pose proof (adds_writeEksaSystemFiles env P fc (fun c _ => H c)).
  pose proof (adds_writeFluxSystemFiles env P fc H).
  pose proof (fun c => adds_gitClient env P (fcFlux fc) c (H c)).
  pose proof (fun p m => adds_pushToRemoteRepo env P (fcFlux fc) p m (H _) (H _)).
  footprint env.
Qed.

(** What an install path does after its provisioning step. *)
Lemma adds_commit_and_bootstrap P f cluster fc spec c :
  (forall c, P c) ->
  adds_only P
    (check commitFluxAndClusterConfigToGit env fc ;;
     if negb (ExistingManagement cluster) then
       err <- Retry (retrier f) (call_err env c) ;;
       match err with
       | Some e =>
           uninstallErr <- uninstallGitOpsToolkits env f cluster spec ;;
           match uninstallErr with
           | Some _ => logger_Info "Could not uninstall flux components"
           | None => ret tt
           end ;;;
           ret (Some e)
       | None => ret nil_error
       end
     else ret nil_error).
Proof.
  intro H. unfold uninstallGitOpsToolkits, Retry, call_err, logger_Info.
  pose proof (adds_commitFluxAndClusterConfigToGit P fc H).
  footprint env.
Qed.

(** The end of [InstallGitOps]: the advisory pull. *)
Lemma adds_pull_tail P f b :
  (forall c, P c) ->
  adds_only P
    (logger_V 3 pullingMessage ;;;
     err <- Retry (retrier f) (gitClient env f (Pull b)) ;;
     match err with
     | Some e => logger_Error e pullFailedMessage
     | None => ret tt
     end ;;;
     ret nil_error).
Proof.
  intro H. unfold Retry, logger_V, logger_Error.
  pose proof (fun c => adds_gitClient env P f c (H c)).
  footprint env.
Qed.

Lemma starts_bind {A B} c (m : M A) (k : A -> M B) s :
  starts_with c m s -> (forall a, adds_only any_call (k a)) ->
  starts_with c (bind m k) s.
Proof.
  intros [l Hl] Hk. unfold starts_with, bind.
  destruct (m s) as [[a|] s1]; simpl in Hl.
  - destruct (Hk a s1) as (l2 & E2 & _).
    exists (l ++ l2). rewrite E2, Hl, <- app_assoc. reflexivity.
  - exists l. exact Hl.
Qed.

Lemma starts_or_return c m w k s :
  starts_with c m s -> adds_only any_call k -> starts_with c (or_return m w k) s.
Proof.
  intros Hm Hk. unfold or_return. apply starts_bind; [exact Hm|].
  intros [e|]; [apply adds_ret | exact Hk].
Qed.

Lemma starts_after_log {A} c e (k : M A) s :
  starts_with c k (logged s [e]) -> starts_with c (log e ;;; k) s.
Proof. intros [l Hl]. exists l. exact Hl. Qed.

Lemma starts_retry_call r c s :
  starts_with c (retry_loop (fun e => e) r (call_err env c)) s.
Proof.
  destruct (retry_call env r_err (fun e => e) c r s) as (k & Hk & Heq & _).
  unfold starts_with, call_err. rewrite Heq. simpl.
  destruct k as [|k]; [lia|]. exists (repeat c k). reflexivity.
Qed.

End MoreFootprints.

(* ================================================================== *)
(** ** Unconfigured GitOps, the local path check, commit and push *)

Section Basics.

Variable env : Env.

Lemma gitClient_configured f gt c :
  gitTools f = Some gt -> gitClient env f c = call_err env c.
Proof. unfold gitClient. intros ->. reflexivity. Qed.

Lemma call_err_eq c s :
  call_err env c s = (Ok (r_err (env (calls s) c)), after s [c]).
Proof. reflexivity. Qed.

(** A retried call that returns only its error. *)
Lemma retry_call_err r c s :
  exists k,
    1 <= k <= attempts r /\
    Retry r (call_err env c) s
    = (Ok (r_err (env (calls s ++ repeat c (k - 1)) c)), after s (repeat c k)) /\
    (r_err (env (calls s ++ repeat c (k - 1)) c) <> None -> k = attempts r) /\
    (forall j, j < k - 1 -> r_err (env (calls s ++ repeat c j) c) <> None).
Proof.
  unfold Retry, attempts, call_err.
  exact (retry_call env r_err (fun e => e) c (pred (maxAttempts r)) s).
Qed.

Lemma retry_first_ok r c s :
  r_err (env (calls s) c) = None ->
  Retry r (call_err env c) s = (Ok None, after s [c]).
Proof.
  intro H. unfold Retry, call_err.
  destruct (pred (maxAttempts r)); simpl; unfold bind, ret;
    rewrite call_eq; rewrite H; reflexivity.
Qed.

Lemma check_call_nil c w k s :
  r_err (env (calls s) c) = None ->
  or_return (call_err env c) w k s = k (after s [c]).
Proof.
  intro E. apply or_return_nil. rewrite call_err_eq, E. reflexivity.
Qed.

Lemma check_call_err c w k s e :
  r_err (env (calls s) c) = Some e ->
  or_return (call_err env c) w k s = (Ok (Some (w e)), after s [c]).
Proof.
  intro E. apply or_return_err. rewrite call_err_eq, E. reflexivity.
Qed.

End Basics.

(** C5: with the git tools unconfigured, every public operation succeeds
    without a single collaborator call; it writes one informational log
    line, and [Validations] returns no validation. *)
Theorem unconfigured_operations_do_nothing
        env f cluster spec dc mcs s :
  gitTools f = None ->
  InstallGitOps env f cluster spec dc mcs s
  = (Ok None, logged s [LogInfo 0 "GitOps field not specified, bootstrap flux skipped"]) /\
  UpdateGitEksaSpec env f spec dc mcs s
  = (Ok None, logged s [LogInfo 0 "GitOps field not specified, update git repo skipped"]) /\
  CleanupGitRepo env f spec s
  = (Ok None, logged s [LogInfo 0 "GitOps field not specified, clean up git repo skipped"]) /\
  PauseGitOpsKustomization env f cluster spec s
  = (Ok None,
     logged s [LogInfo 0 "GitOps field not specified, pause flux kustomization skipped"]) /\
  ResumeGitOpsKustomization env f cluster spec s
  = (Ok None,
     logged s [LogInfo 0 "GitOps field not specified, resume flux kustomization skipped"]) /\
  ForceReconcileGitRepo env f cluster spec s
  = (Ok None,
     logged s [LogInfo 0 "GitOps not configured, force reconcile flux git repo skipped"]) /\
  Validations env f spec = [] /\
  forall l, calls (logged s l) = calls s.
Proof.
  intro H.
  unfold InstallGitOps, UpdateGitEksaSpec, CleanupGitRepo,
    PauseGitOpsKustomization, ResumeGitOpsKustomization,
    ForceReconcileGitRepo, Validations, shouldSkipFlux.
  rewrite H.
  repeat split; reflexivity.
Qed.

Lemma unconfigured_operations_do_nothing_witness :
  CleanupGitRepo Scenario.env_checked_out Scenario.unconfigured
    (Scenario.mgmtSpec Scenario.hosted) Scenario.start
  = (Ok None,
     logged Scenario.start
       [LogInfo 0 "GitOps field not specified, clean up git repo skipped"]).
Proof.
  exact (proj1 (proj2 (proj2
    (unconfigured_operations_do_nothing
       Scenario.env_checked_out Scenario.unconfigured
       Scenario.newCluster (Scenario.mgmtSpec Scenario.hosted)
       Scenario.dc Scenario.mcs Scenario.start eq_refl)))).
Defined.

(** C9: on a configured cluster [validateLocalConfigPathDoesNotExist]
    returns an error exactly when the cluster is self-managed and the
    cluster configuration path exists under the writer's directory; for a
    managed cluster it returns nil and does not look at the disk. *)
Theorem validateLocalConfigPathDoesNotExist_iff env fc gt s :
  gitTools (fcFlux fc) = Some gt ->
  exists r s',
    validateLocalConfigPathDoesNotExist env fc s = (Ok r, s') /\
    (r <> None <->
     IsSelfManaged (SpecCluster (clusterSpec fc)) = true /\
     r_bool (env (calls s) (FileExists (GoPath.Join [WriterDir gt; path fc]))) = true) /\
    (IsManaged (SpecCluster (clusterSpec fc)) = true -> r = None /\ s' = s).
Proof.
  intro Hgt. unfold validateLocalConfigPathDoesNotExist, writerDir, IsSelfManaged, IsManaged.
  rewrite Hgt.
  destruct (Managed (SpecCluster (clusterSpec fc))); simpl.
  - exists None, s. split; [reflexivity|]. split.
    + split; [intro H; exfalso; apply H; reflexivity | intros [H _]; discriminate].
    + auto.
  - unfold bind, ret. rewrite call_eq.
    destruct (r_bool (env (calls s) (FileExists (GoPath.Join [WriterDir gt; path fc])))) eqn:E.
    + eexists _, _. split; [reflexivity|]. split.
      * split; [auto | discriminate].
      * discriminate.
    + eexists _, _. split; [reflexivity|]. split.
      * split; [intro H; exfalso; apply H; reflexivity | intros [_ H]; discriminate].
      * discriminate.
Qed.

Lemma validateLocalConfigPathDoesNotExist_iff_witness :
  fst (validateLocalConfigPathDoesNotExist Scenario.env_checked_out
         (mkFluxForCluster Scenario.flux (Scenario.mgmtSpec Scenario.hosted) None None)
         Scenario.start)
  <> Ok None.
Proof.
  destruct (validateLocalConfigPathDoesNotExist_iff Scenario.env_checked_out
              (mkFluxForCluster Scenario.flux (Scenario.mgmtSpec Scenario.hosted) None None)
              Scenario.tools Scenario.start eq_refl)
    as (r & s' & Heq & Hiff & _).
  rewrite Heq. simpl. intro H. inversion H as [Hr].
  apply (proj2 Hiff); [split; reflexivity | exact Hr].
Defined.

(** What [pushToRemoteRepo] does, by the outcome of the commit and of the
    pushes. *)
Lemma pushToRemoteRepo_spec env f gt path msg s :
  gitTools f = Some gt ->
  match r_err (env (calls s) (Commit msg)) with
  | Some e =>
      pushToRemoteRepo env f path msg s
      = (Ok (Some (ConfigVersionControlFailedError
                     (Errorf_v "committing %s to git:  %v" [path] e))),
         after s [Commit msg])
  | None =>
      exists k,
        1 <= k <= attempts (retrier f) /\
        let last := r_err (env (calls s ++ Commit msg :: repeat Push (k - 1)) Push) in
        pushToRemoteRepo env f path msg s
        = (Ok (option_map
                 (fun e => ConfigVersionControlFailedError
                             (Errorf_v "pushing %s to git: %v" [path] e))
                 last),
           after s (Commit msg :: repeat Push k)) /\
        (last <> None -> k = attempts (retrier f)) /\
        (forall j, j < k - 1 ->
                   r_err (env (calls s ++ Commit msg :: repeat Push j) Push) <> None)
  end.
Proof.
  intro Hgt. unfold pushToRemoteRepo.
  rewrite !(gitClient_configured env f gt _ Hgt).
  destruct (r_err (env (calls s) (Commit msg))) as [e|] eqn:E.
  - rewrite (or_return_err _ _ _ _ _ _ (eq_trans (call_err_eq env _ s)
                                          (f_equal (fun x => (Ok x, _)) E))).
    reflexivity.
  - rewrite (or_return_nil _ _ _ _ _ (eq_trans (call_err_eq env _ s)
                                        (f_equal (fun x => (Ok x, _)) E))).
    destruct (retry_call_err env (retrier f) Push (after s [Commit msg]))
      as (k & Hk & Heq & Hlast & Hprev).
    simpl calls in *.
    assert (Hsh : forall n, (calls s ++ [Commit msg]) ++ repeat Push n
                            = calls s ++ Commit msg :: repeat Push n).
    { intro n. rewrite <- app_assoc. reflexivity. }
    rewrite Hsh in Heq, Hlast.
    exists k. split; [exact Hk|]. cbv zeta. split.
    + unfold or_return. rewrite (bind_eq _ _ _ _ _ Heq).
      rewrite after_after.
      destruct (r_err (env (calls s ++ Commit msg :: repeat Push (k - 1)) Push));
        reflexivity.
    + split; [exact Hlast|].
      intros j Hj. rewrite <- Hsh. apply Hprev. exact Hj.
Qed.


(** C4: [pushToRemoteRepo] commits once.  When the commit fails it returns
    a [ConfigVersionControlFailedError] at once and never pushes.  Otherwise
    it pushes under retry, stopping at the first push that succeeds; when
    every attempt failed the result is a [ConfigVersionControlFailedError]
    too, which wraps the error of the last push instead of the commit's. *)
Theorem pushToRemoteRepo_commit_then_push env f gt path msg s :
  gitTools f = Some gt ->
  match r_err (env (calls s) (Commit msg)) with
  | Some e =>
      pushToRemoteRepo env f path msg s
      = (Ok (Some (ConfigVersionControlFailedError
                     (Errorf_v "committing %s to git:  %v" [path] e))),
         after s [Commit msg])
  | None =>
      exists k,
        1 <= k <= attempts (retrier f) /\
        let last := r_err (env (calls s ++ Commit msg :: repeat Push (k - 1)) Push) in
        pushToRemoteRepo env f path msg s
        = (Ok (option_map
                 (fun e => ConfigVersionControlFailedError
                             (Errorf_v "pushing %s to git: %v" [path] e))
                 last),
           after s (Commit msg :: repeat Push k)) /\
        (last <> None -> k = attempts (retrier f)) /\
        (forall j, j < k - 1 ->
                   r_err (env (calls s ++ Commit msg :: repeat Push j) Push) <> None)
  end.
Proof. exact (pushToRemoteRepo_spec env f gt path msg s). Qed.

Lemma pushToRemoteRepo_commit_then_push_witness :
  pushToRemoteRepo Scenario.env_offline Scenario.flux "clusters" "msg" Scenario.start
  = (Ok (Some (ConfigVersionControlFailedError
                 (Errorf_v "pushing %s to git: %v" ["clusters"]
                           (Opaque "network unreachable")))),
     after Scenario.start (Commit "msg" :: repeat Push 5)).
Proof.
  pose proof (pushToRemoteRepo_commit_then_push Scenario.env_offline Scenario.flux
                Scenario.tools "clusters" "msg" Scenario.start eq_refl) as H.
  simpl in H. destruct H as (k & Hk & Heq & Hlast & _).
  assert (k = 5) by (apply Hlast; discriminate). subst k.
  exact Heq.
Defined.

(* ================================================================== *)
(** ** Setting up the provider repository *)

Section Provisioning.

Variable env : Env.

Lemma retry_panic {X A} (errOf : X -> option error) (k : A -> M X) more s :
  retry_loop errOf more (bind panic k) s = (Panic, s).
Proof. destruct more; reflexivity. Qed.

(** [initializeLocalRepository] makes its three calls in order and stops
    at the first that fails. *)
Lemma initializeLocalRepository_spec fc gt s :
  gitTools (fcFlux fc) = Some gt ->
  exists r l,
    initializeLocalRepository env fc s = (Ok r, after s l) /\
    is_prefix l (initSequence (branch fc)) /\
    l <> [] /\
    (r = None -> l = initSequence (branch fc)) /\
    (forall e, r = Some e -> initFailure e) /\
    (r_err (env (calls s) Init) = None ->
     r_err (env (calls s ++ [Init]) (Commit "initializing repository")) = None ->
     r_err (env (calls s ++ [Init; Commit "initializing repository"])
                (GitBranch (branch fc))) = None ->
     r = None).
Proof.
  intro Hgt. unfold initializeLocalRepository.
  rewrite !(gitClient_configured env _ gt _ Hgt). unfold nil_error.
  destruct (r_err (env (calls s) Init)) as [e1|] eqn:E1.
  { rewrite (check_call_err env _ _ _ s e1 E1).
    exists (Some (Errorf_w "could not initialize repo: %w" [] e1)), [Init].
    split; [reflexivity|]. split; [eexists; reflexivity|].
    split; [discriminate|]. split; [discriminate|].
    split; [intros e H; inversion H; constructor | discriminate]. }
  rewrite (check_call_nil env _ _ _ s E1).
  destruct (r_err (env (calls s ++ [Init]) (Commit "initializing repository")))
    as [e2|] eqn:E2.
  { rewrite (check_call_err env _ _ _ (after s [Init]) e2 E2).
    rewrite after_after.
    exists (Some (Errorf_v "initializing repository: %v" [] e2)),
      [Init; Commit "initializing repository"].
    split; [reflexivity|]. split; [eexists; reflexivity|].
    split; [discriminate|]. split; [discriminate|].
    split; [intros e H; inversion H; constructor | discriminate]. }
  rewrite (check_call_nil env _ _ _ (after s [Init]) E2).
  rewrite after_after. simpl app.
  destruct (r_err (env (calls s ++ [Init; Commit "initializing repository"])
                       (GitBranch (branch fc)))) as [e3|] eqn:E3.
  { rewrite (check_call_err env _ _ _ (after s [Init; Commit "initializing repository"])
                            e3 E3).
    rewrite after_after.
    exists (Some (Errorf_v "creating branch: %v" [] e3)), (initSequence (branch fc)).
    split; [reflexivity|]. split; [exists []; reflexivity|].
    split; [discriminate|]. split; [reflexivity|].
    split; [intros e H; inversion H; constructor | discriminate]. }
  rewrite (check_call_nil env _ _ _ (after s [Init; Commit "initializing repository"]) E3).
  rewrite after_after.
  exists None, (initSequence (branch fc)).
  split; [reflexivity|]. split; [exists []; reflexivity|].
  split; [discriminate|]. split; [reflexivity|].
  split; [discriminate | reflexivity].
Qed.

(** A finished repository lookup went through a provider and made
    nothing but [GetRepo] calls. *)
Lemma describeRepo_inv fc s d s1 :
  describeRepo env fc s = (Ok d, s1) ->
  exists gt j,
    gitTools (fcFlux fc) = Some gt /\ Provider gt = true /\
    1 <= j <= attempts (retrier (fcFlux fc)) /\
    s1 = after s (repeat GetRepo j) /\
    d = (r_repo (env (calls s ++ repeat GetRepo (j - 1)) GetRepo),
         r_err (env (calls s ++ repeat GetRepo (j - 1)) GetRepo)).
Proof.
  unfold describeRepo, RetryCapturing, gitProvider.
  destruct (gitTools (fcFlux fc)) as [gt|] eqn:Hgt.
  2:{ rewrite retry_panic. discriminate. }
  destruct (Provider gt) eqn:Hp.
  2:{ rewrite retry_panic. discriminate. }
  destruct (retry_call env (fun r => (r_repo r, r_err r)) snd GetRepo
              (pred (maxAttempts (retrier (fcFlux fc)))) s)
    as (j & Hj & Heq & _).
  rewrite Heq. intro H. inversion H. subst.
  exists gt, j. repeat split; try reflexivity; try assumption; apply Hj.
Qed.

(** [createRemoteRepository] retries one and the same [CreateRepo]. *)
Lemma createRemoteRepository_spec fc gt s :
  gitTools (fcFlux fc) = Some gt -> Provider gt = true ->
  let c := CreateRepo (createRepoOpts fc) in
  exists k s',
    1 <= k <= attempts (retrier (fcFlux fc)) /\
    createRemoteRepository env fc s
    = (Ok (option_map (fun e => Errorf_w "could not create repo: %w" [] e)
                      (r_err (env (calls s ++ repeat c (k - 1)) c))),
       s') /\
    calls s' = calls s ++ repeat c k /\
    (r_err (env (calls s ++ repeat c (k - 1)) c) <> None ->
     k = attempts (retrier (fcFlux fc))) /\
    (forall j, j < k - 1 -> r_err (env (calls s ++ repeat c j) c) <> None).
Proof.
  intros Hgt Hp c. unfold createRemoteRepository, gitProvider.
  rewrite Hgt, Hp. unfold logger_V.
  set (s0 := logged s [LogInfo 3 "Remote Github repo does not exist; will create and initialize";
                       LogInfo 3 "Creating remote Github repo"]).
  destruct (retry_call env r_err (fun e => e) c
              (pred (maxAttempts (retrier (fcFlux fc)))) s0)
    as (k & Hk & Heq & Hlast & Hprev).
  change (calls s0) with (calls s) in *.
  exists k, (after s0 (repeat c k)).
  split; [exact Hk|]. split.
  - unfold bind at 1. unfold log at 1. unfold bind at 1. unfold log at 1.
    simpl. unfold or_return, Retry.
    replace {| calls := calls s;
               logs := (logs s ++ [LogInfo 3 "Remote Github repo does not exist; will create and initialize"])
                       ++ [LogInfo 3 "Creating remote Github repo"] |}
      with s0 by (unfold s0, logged; rewrite <- app_assoc; reflexivity).
    fold c. rewrite (bind_eq _ _ _ _ _ Heq). simpl calls.
    destruct (r_err (env (calls s ++ repeat c (k - 1)) c)); reflexivity.
  - split; [reflexivity|]. split; [exact Hlast | exact Hprev].
Qed.

Lemma count_calls_app p l1 l2 :
  count_calls p (l1 ++ l2) = count_calls p l1 + count_calls p l2.
Proof. unfold count_calls. rewrite filter_app, length_app. reflexivity. Qed.

Lemma count_calls_repeat_false p c n :
  p c = false -> count_calls p (repeat c n) = 0.
Proof.
  intro H. unfold count_calls. induction n as [|n IH]; simpl; [reflexivity|].
  rewrite H. exact IH.
Qed.

Lemma count_calls_repeat_true p c n :
  p c = true -> count_calls p (repeat c n) = n.
Proof.
  intro H. unfold count_calls. induction n as [|n IH]; simpl; [reflexivity|].
  rewrite H. simpl. rewrite IH. reflexivity.
Qed.

Lemma count_calls_prefix_zero p l full :
  is_prefix l full -> count_calls p full = 0 -> count_calls p l = 0.
Proof.
  intros [rest ->] H. rewrite count_calls_app in H. lia.
Qed.

End Provisioning.

(** C1 (as the code has it): when the repository lookup ends with "no
    repository, no error", [setupProviderRepository] calls [CreateRepo]
    under retry: between one and the retrier's number of attempts, always
    with the options name, owner, description, personal flag and
    private = true, and once only when the first attempt succeeds.  When
    the last attempt failed, nothing else is called and the failure is
    returned; otherwise the local initialization follows the [CreateRepo]
    calls: [Init], the commit "initializing repository", the branch, up to
    the first of them that fails.  No [Clone] call is made. *)
Theorem setupProviderRepository_creates_missing_repo env fc s s1 :
  describeRepo env fc s = (Ok (None, None), s1) ->
  let c := CreateRepo {| optName := repository fc;
                         optOwner := owner fc;
                         optDescription := "EKS-A cluster configuration repository";
                         optPersonal := personal fc;
                         optPrivacy := true |} in
  let n := attempts (retrier (fcFlux fc)) in
  exists k l r s2,
    setupProviderRepository env fc s = (Ok r, s2) /\
    1 <= k <= n /\
    calls s2 = calls s1 ++ repeat c k ++ l /\
    count_calls is_Clone (calls s2) = count_calls is_Clone (calls s) /\
    (r_err (env (calls s1) c) = None -> k = 1) /\
    match r_err (env (calls s1 ++ repeat c (k - 1)) c) with
    | Some e =>
        k = n /\ l = [] /\
        r = Some (ConfigVersionControlFailedError
                    (Errorf_w "could not create repo: %w" [] e))
    | None =>
        is_prefix l (initSequence (branch fc)) /\ l <> [] /\
        (r = None -> l = initSequence (branch fc)) /\
        (forall e, r = Some e ->
                   exists e0, e = ConfigVersionControlFailedError e0 /\ initFailure e0) /\
        (r_err (env (calls s1 ++ repeat c k) Init) = None ->
         r_err (env (calls s1 ++ repeat c k ++ [Init])
                    (Commit "initializing repository")) = None ->
         r_err (env (calls s1 ++ repeat c k ++ [Init; Commit "initializing repository"])
                    (GitBranch (branch fc))) = None ->
         r = None)
    end.
Proof.
  intros Hd c n.
  destruct (describeRepo_inv env fc s _ s1 Hd) as (gt & j & Hgt & Hp & Hj & Hs1 & _).
  unfold setupProviderRepository.
  rewrite (bind_eq _ _ _ _ _ Hd). cbn [fst snd].
  unfold bind at 1. unfold ret at 1. unfold nil_error at 1.
  destruct (createRemoteRepository_spec env fc gt s1 Hgt Hp)
    as (k & s' & Hk & Hcr & Hcalls & Hlast & Hprev).
  change (CreateRepo (createRepoOpts fc)) with c in *.
  assert (Hone : r_err (env (calls s1) c) = None -> k = 1).
  { intro H0. destruct (Nat.eq_dec k 1) as [|Hne]; [assumption|].
    exfalso. apply (Hprev 0); [lia|]. simpl. rewrite app_nil_r. exact H0. }
  assert (Hclone0 : count_calls is_Clone (calls s1 ++ repeat c k)
                    = count_calls is_Clone (calls s)).
  { rewrite Hs1. simpl calls. rewrite !count_calls_app.
    rewrite !count_calls_repeat_false by reflexivity. lia. }
  destruct (r_err (env (calls s1 ++ repeat c (k - 1)) c)) as [e|] eqn:Ecr.
  - exists k, [], (Some (ConfigVersionControlFailedError
                          (Errorf_w "could not create repo: %w" [] e))), s'.
    rewrite Ecr.
    split. { rewrite (or_return_err _ _ _ _ _ _ Hcr). reflexivity. }
    split; [exact Hk|].
    split. { rewrite app_nil_r. exact Hcalls. }
    split. { rewrite Hcalls. exact Hclone0. }
    split; [exact Hone|].
    split; [apply Hlast; discriminate | split; reflexivity].
  - rewrite (or_return_nil _ _ _ _ _ Hcr).
    destruct (initializeLocalRepository_spec env fc gt s' Hgt)
      as (r0 & l & Hinit & Hpre & Hne & Hfull & Hfail & Hok).
    rewrite Hcalls in Hok.
    exists k, l, (option_map ConfigVersionControlFailedError r0), (after s' l).
    rewrite Ecr.
    split.
    { destruct r0 as [e0|].
      - rewrite (or_return_err _ _ _ _ _ _ Hinit). reflexivity.
      - rewrite (or_return_nil _ _ _ _ _ Hinit). reflexivity. }
    split; [exact Hk|].
    split. { simpl calls. rewrite Hcalls, <- app_assoc. reflexivity. }
    split.
    { simpl calls. rewrite Hcalls, count_calls_app, Hclone0.
      rewrite (count_calls_prefix_zero is_Clone l _ Hpre) by reflexivity. lia. }
    split; [exact Hone|].
    split; [exact Hpre|]. split; [exact Hne|].
    split. { destruct r0; [discriminate | intros _; apply Hfull; reflexivity]. }
    split.
    { intros e He. destruct r0 as [e0|]; [|discriminate].
      inversion He. exists e0. split; [reflexivity | apply Hfail; reflexivity]. }
    intros H1 H2 H3. rewrite <- !app_assoc in Hok.
    rewrite (Hok H1 H2 H3). reflexivity.
Qed.

Lemma setupProviderRepository_creates_missing_repo_witness :
  exists s2,
    setupProviderRepository Scenario.env_fresh
      (mkFluxForCluster Scenario.flux (Scenario.mgmtSpec Scenario.hosted)
                        Scenario.dc Scenario.mcs)
      Scenario.start = (Ok None, s2) /\
    calls s2 =
    [GetRepo;
     CreateRepo {| optName := "fleet"; optOwner := "octo";
                   optDescription := "EKS-A cluster configuration repository";
                   optPersonal := true; optPrivacy := true |};
     Init; Commit "initializing repository"; GitBranch "main"].
Proof.
  pose (fc := mkFluxForCluster Scenario.flux (Scenario.mgmtSpec Scenario.hosted)
                               Scenario.dc Scenario.mcs).
  destruct (setupProviderRepository_creates_missing_repo Scenario.env_fresh fc
              Scenario.start (after Scenario.start [GetRepo]) eq_refl)
    as (k & l & r & s2 & Heq & _ & Hcalls & _ & Hone & Hrest).
  assert (k = 1) by (apply Hone; reflexivity). subst k.
  simpl in Hrest. destruct Hrest as (_ & _ & Hfull & _ & Hok).
  assert (r = None) by (apply Hok; reflexivity). subst r.
  exists s2. split; [exact Heq|].
  rewrite Hcalls, (Hfull eq_refl). reflexivity.
Defined.

(** C1, as stated, fails: the first [CreateRepo] attempt fails, the second
    succeeds; the lookup said "not found", the operation succeeds, and
    [CreateRepo] was called twice. *)
Lemma setupProviderRepository_two_CreateRepo_calls :
  let fc := mkFluxForCluster Scenario.flux (Scenario.mgmtSpec Scenario.hosted)
                             Scenario.dc Scenario.mcs in
  describeRepo Scenario.env_create_flaky fc Scenario.start
  = (Ok (None, None), after Scenario.start [GetRepo]) /\
  fst (setupProviderRepository Scenario.env_create_flaky fc Scenario.start) = Ok None /\
  count_calls is_CreateRepo
    (calls (snd (setupProviderRepository Scenario.env_create_flaky fc Scenario.start)))
  = 2.
Proof. repeat split; vm_compute; reflexivity. Qed.




(* ================================================================== *)
(** ** Bootstrap and rollback *)

Section Rollback.

Variable env : Env.

(** What a failed [Retry] of a single call tells. *)
Lemma retry_call_err_failed r c s e s2 :
  Retry r (call_err env c) s = (Ok (Some e), s2) ->
  s2 = after s (repeat c (attempts r)) /\
  r_err (env (calls s ++ repeat c (attempts r - 1)) c) = Some e.
Proof.
  intro H. destruct (retry_call_err env r c s) as (k & Hk & Heq & Hlast & _).
  rewrite Heq in H. inversion H as [[He Hs]].
  assert (k = attempts r) by (apply Hlast; rewrite He; discriminate).
  subst k. split; reflexivity.
Qed.

(** The rollback of both install paths: [Uninstall] under retry, its
    failure logged, the bootstrap error returned. *)
Lemma rollback_spec f cluster spec (e : error) (s : State) :
  exists k s3,
    (uninstallErr <- uninstallGitOpsToolkits env f cluster spec ;;
     match uninstallErr with
     | Some _ => logger_Info uninstallFailedMessage
     | None => ret tt
     end ;;;
     ret (Some e)) s = (Ok (Some e), s3) /\
    1 <= k <= attempts (retrier f) /\
    calls s3 = calls s ++ repeat Uninstall k /\
    (r_err (env (calls s) Uninstall) = None -> k = 1) /\
    (r_err (env (calls s ++ repeat Uninstall (k - 1)) Uninstall) <> None ->
     k = attempts (retrier f)) /\
    logs s3 = logs s ++
              match r_err (env (calls s ++ repeat Uninstall (k - 1)) Uninstall) with
              | Some _ => [LogInfo 0 uninstallFailedMessage]
              | None => []
              end.
Proof.
  unfold uninstallGitOpsToolkits.
  destruct (retry_call_err env (retrier f) Uninstall s)
    as (k & Hk & Heq & Hlast & Hprev).
  rewrite (bind_eq _ _ _ _ _ Heq).
  assert (Hone : r_err (env (calls s) Uninstall) = None -> k = 1).
  { intro H0. destruct (Nat.eq_dec k 1) as [|Hne]; [assumption|].
    exfalso. apply (Hprev 0); [lia|]. simpl. rewrite app_nil_r. exact H0. }
  destruct (r_err (env (calls s ++ repeat Uninstall (k - 1)) Uninstall))
    as [ue|] eqn:E.
  - exists k, (logged (after s (repeat Uninstall k)) [LogInfo 0 uninstallFailedMessage]).
    rewrite E.
    repeat split; try reflexivity; try apply Hk; try assumption.
  - exists k, (after s (repeat Uninstall k)).
    rewrite E.
    repeat split; try apply Hk; try assumption.
    simpl. rewrite app_nil_r. reflexivity.
Qed.

End Rollback.

(** C3 (as the code has it): on a cluster that is not an existing
    management cluster, when the repository is provisioned, the
    configuration committed and the bootstrap call ([BootstrapGithub] on the
    hosted path, [BootstrapGit] on the generic one) has failed on every
    attempt, the install path returns the error of the last bootstrap
    attempt.  Before that it calls [Uninstall] under retry: between one and
    the retrier's number of attempts, once only when the first attempt
    succeeds.  A failed uninstall leaves one log line and nothing else. *)
Theorem install_bootstrap_failure_rolls_back
        env p f cluster fc spec s sa s1 s2 e :
  ExistingManagement cluster = false ->
  provision env p fc s = (Ok None, sa) ->
  commitFluxAndClusterConfigToGit env fc sa = (Ok None, s1) ->
  Retry (retrier f) (call_err env (bootstrapCall p)) s1 = (Ok (Some e), s2) ->
  let n := attempts (retrier f) in
  exists k s3,
    installPath env p f cluster fc spec s = (Ok (Some e), s3) /\
    calls s2 = calls s1 ++ repeat (bootstrapCall p) n /\
    r_err (env (calls s1 ++ repeat (bootstrapCall p) (n - 1)) (bootstrapCall p)) = Some e /\
    1 <= k <= n /\
    calls s3 = calls s2 ++ repeat Uninstall k /\
    (r_err (env (calls s2) Uninstall) = None -> k = 1) /\
    (r_err (env (calls s2 ++ repeat Uninstall (k - 1)) Uninstall) <> None -> k = n) /\
    logs s3 = logs s2 ++
              match r_err (env (calls s2 ++ repeat Uninstall (k - 1)) Uninstall) with
              | Some _ => [LogInfo 0 uninstallFailedMessage]
              | None => []
              end.
Proof.
  intros Hex Hprov Hcommit Hboot n.
  destruct (retry_call_err_failed env _ _ _ _ _ Hboot) as [Hs2 Hlast].
  destruct (rollback_spec env f cluster spec e s2)
    as (k & s3 & Hrb & Hk & Hcalls & Hone & Hall & Hlogs).
  exists k, s3.
  split.
  { destruct p; simpl in Hprov, Hboot |- *;
      [unfold installGitOpsGithub | unfold installGitOpsGenericGit];
      rewrite (or_return_nil _ _ _ _ _ Hprov);
      rewrite (or_return_nil _ _ _ _ _ Hcommit);
      rewrite Hex; change (negb false) with true; cbv iota;
      rewrite (bind_eq _ _ _ _ _ Hboot); exact Hrb. }
  split. { rewrite Hs2. reflexivity. }
  split; [exact Hlast|].
  repeat split; try apply Hk; assumption.
Qed.

Lemma install_bootstrap_failure_rolls_back_witness :
  exists s3,
    installPath Scenario.env_toolkit_down Generic Scenario.flux Scenario.newCluster
      Scenario.generic_fc (Scenario.mgmtSpec Scenario.generic) Scenario.start
    = (Ok (Some (Opaque "bootstrap timed out")), s3) /\
    count_calls is_Uninstall (calls s3) = 5.
Proof.
  assert (H1 : provision Scenario.env_toolkit_down Generic Scenario.generic_fc
                 Scenario.start = (Ok None, Scenario.toolkit_down_cloned))
    by (vm_compute; reflexivity).
  assert (H2 : commitFluxAndClusterConfigToGit Scenario.env_toolkit_down
                 Scenario.generic_fc Scenario.toolkit_down_cloned
               = (Ok None, Scenario.toolkit_down_committed))
    by (vm_compute; reflexivity).
  assert (H3 : Retry (retrier Scenario.flux)
                 (call_err Scenario.env_toolkit_down (bootstrapCall Generic))
                 Scenario.toolkit_down_committed
               = (Ok (Some (Opaque "bootstrap timed out")),
                  Scenario.toolkit_down_bootstrapped))
    by (vm_compute; reflexivity).
  destruct (install_bootstrap_failure_rolls_back
              Scenario.env_toolkit_down Generic Scenario.flux Scenario.newCluster
              Scenario.generic_fc (Scenario.mgmtSpec Scenario.generic)
              Scenario.start _ _ _ _ eq_refl H1 H2 H3)
    as (k & s3 & Heq & _ & _ & _ & Hcalls & _ & Hall & _).
  assert (k = 5) by (apply Hall; vm_compute; discriminate). subst k.
  exists s3. split; [exact Heq|].
  rewrite Hcalls. vm_compute. reflexivity.
Defined.

(** C3, as stated, fails: the bootstrap fails on all five attempts and so
    does the uninstall; the bootstrap error is returned, and [Uninstall] was
    called five times. *)
Lemma install_rollback_retries_Uninstall :
  let fc := mkFluxForCluster Scenario.flux (Scenario.mgmtSpec Scenario.hosted)
                             Scenario.dc Scenario.mcs in
  let run := installGitOpsGithub Scenario.env_toolkit_down Scenario.flux
               Scenario.newCluster fc (Scenario.mgmtSpec Scenario.hosted)
               Scenario.start in
  ExistingManagement Scenario.newCluster = false /\
  fst run = Ok (Some (Opaque "bootstrap timed out")) /\
  count_calls is_Bootstrap (calls (snd run)) = 5 /\
  count_calls is_Uninstall (calls (snd run)) = 5.
Proof. repeat split; vm_compute; reflexivity. Qed.

(* ================================================================== *)
(** ** [InstallGitOps] *)

(** C8: on a configured cluster, once the provider branches of
    [InstallGitOps] have succeeded (with or without a bootstrap: the cluster
    may be an existing management cluster), [Pull] on the configured branch
    is called under retry, and [InstallGitOps] returns nil whatever the pull
    did; a pull that failed on every attempt leaves one error line in the
    log. *)
Theorem InstallGitOps_pulls_after_install env f gt cluster spec dc mcs s s1 s2 :
  gitTools f = Some gt ->
  let fc := mkFluxForCluster f spec dc mcs in
  githubBranch env f cluster fc spec s = (Ok None, s1) ->
  genericGitBranch env f cluster fc spec s1 = (Ok None, s2) ->
  let pull := Pull (Branch (SpecFluxConfig spec)) in
  exists k s3,
    InstallGitOps env f cluster spec dc mcs s = (Ok None, s3) /\
    1 <= k <= attempts (retrier f) /\
    calls s3 = calls s2 ++ repeat pull k /\
    (r_err (env (calls s2 ++ repeat pull (k - 1)) pull) <> None ->
     k = attempts (retrier f)) /\
    (forall j, j < k - 1 -> r_err (env (calls s2 ++ repeat pull j) pull) <> None) /\
    logs s3 = logs s2 ++
              LogInfo 3 pullingMessage ::
              match r_err (env (calls s2 ++ repeat pull (k - 1)) pull) with
              | Some e => [LogError e pullFailedMessage]
              | None => []
              end.
Proof.
  intros Hgt fc Hgh Hgit pull.
  unfold InstallGitOps, shouldSkipFlux. rewrite Hgt.
  fold fc.
  rewrite (or_return_nil _ _ _ _ _ Hgh).
  rewrite (or_return_nil _ _ _ _ _ Hgit).
  rewrite (gitClient_configured env f gt _ Hgt).
  change (Pull (branch fc)) with pull.
  set (s2' := logged s2 [LogInfo 3 pullingMessage]).
  destruct (retry_call_err env (retrier f) pull s2')
    as (k & Hk & Heq & Hlast & Hprev).
  change (calls s2') with (calls s2) in *.
  unfold logger_V. unfold bind at 1. unfold log at 1. fold pullingMessage. fold s2'.
  rewrite (bind_eq _ _ _ _ _ Heq).
  destruct (r_err (env (calls s2 ++ repeat pull (k - 1)) pull)) as [e|] eqn:E.
  - exists k, (logged (after s2' (repeat pull k)) [LogError e pullFailedMessage]).
    rewrite E.
    split; [reflexivity|]. split; [exact Hk|]. split; [reflexivity|].
    split; [exact Hlast|]. split; [exact Hprev|].
    simpl. rewrite <- app_assoc. reflexivity.
  - exists k, (after s2' (repeat pull k)).
    rewrite E.
    split; [reflexivity|]. split; [exact Hk|]. split; [reflexivity|].
    split; [exact Hlast|]. split; [exact Hprev|].
    reflexivity.
Qed.

Lemma InstallGitOps_pulls_after_install_witness :
  exists s3,
    InstallGitOps Scenario.env_pull_down Scenario.flux Scenario.existingCluster
      (Scenario.workloadSpec Scenario.hosted) Scenario.dc Scenario.mcs Scenario.start
    = (Ok None, s3) /\
    count_calls is_Bootstrap (calls s3) = 0 /\
    exists before, calls s3 = before ++ repeat (Pull "main") 5.
Proof.
  assert (H1 : githubBranch Scenario.env_pull_down Scenario.flux Scenario.existingCluster
                 (mkFluxForCluster Scenario.flux (Scenario.workloadSpec Scenario.hosted)
                                   Scenario.dc Scenario.mcs)
                 (Scenario.workloadSpec Scenario.hosted) Scenario.start
               = (Ok None, Scenario.pull_down_installed))
    by (vm_compute; reflexivity).
  assert (H2 : genericGitBranch Scenario.env_pull_down Scenario.flux
                 Scenario.existingCluster
                 (mkFluxForCluster Scenario.flux (Scenario.workloadSpec Scenario.hosted)
                                   Scenario.dc Scenario.mcs)
                 (Scenario.workloadSpec Scenario.hosted) Scenario.pull_down_installed
               = (Ok None, Scenario.pull_down_installed))
    by (vm_compute; reflexivity).
  destruct (InstallGitOps_pulls_after_install
              Scenario.env_pull_down Scenario.flux Scenario.tools
              Scenario.existingCluster (Scenario.workloadSpec Scenario.hosted)
              Scenario.dc Scenario.mcs
              Scenario.start _ _ eq_refl H1 H2)
    as (k & s3 & Heq & _ & Hcalls & Hlast & _).
  assert (k = 5) by (apply Hlast; vm_compute; discriminate). subst k.
  exists s3. split; [exact Heq|]. split.
  - rewrite Hcalls. vm_compute. reflexivity.
  - exists (calls Scenario.pull_down_installed). exact Hcalls.
Defined.

Section BothProviders.

Variable env : Env.

Let all_calls : forall c, any_call c := fun _ => I.

Lemma starts_clone fc gt s :
  gitTools (fcFlux fc) = Some gt -> starts_with Clone (clone env fc) s.
Proof.
  intro Hgt. unfold clone, logger_V.
  apply starts_after_log.
  rewrite (gitClient_configured env _ gt Clone Hgt).
  apply starts_or_return.
  - unfold Retry. apply starts_retry_call.
  - pose proof (fun c => adds_gitClient env any_call (fcFlux fc) c (all_calls c)).
    footprint env.
Qed.

(** A successful hosted install began with the repository lookup. *)
Lemma installGitOpsGithub_begins_with_GetRepo f cluster fc spec s s1 :
  installGitOpsGithub env f cluster fc spec s = (Ok None, s1) ->
  exists l, calls s1 = calls s ++ GetRepo :: l.
Proof.
  unfold installGitOpsGithub. intro H.
  apply or_return_nil_inv in H. destruct H as (sa & Hsetup & Hrest).
  destruct (adds_grow any_call _ _ _ _
              (adds_commit_and_bootstrap env any_call f cluster fc spec
                                         BootstrapGithub all_calls) Hrest)
    as (l2 & Hl2 & _).
  unfold setupProviderRepository in Hsetup.
  apply bind_Ok_inv in Hsetup. destruct Hsetup as (d & sd & Hd & Hk).
  destruct (describeRepo_inv env fc s d sd Hd) as (gt & j & _ & _ & Hj & Hsd & _).
  assert (Hcont : exists l1, calls sa = calls sd ++ l1).
  { refine (let H := adds_grow any_call _ sd _ sa _ Hk in _).
    destruct H as (l1 & Hl1 & _). exists l1. exact Hl1. }
  destruct Hcont as (l1 & Hl1).
  destruct j as [|j]; [lia|].
  exists (repeat GetRepo j ++ l1 ++ l2).
  rewrite Hl2, Hl1, Hsd. simpl. rewrite <- !app_assoc. reflexivity.
  Unshelve.
  pose proof (adds_clone env any_call fc I I).
  pose proof (adds_initializeLocalRepository env any_call fc all_calls).
  pose proof (adds_createRemoteRepository env any_call fc all_calls).
  unfold logger_V. footprint env.
Qed.

End BothProviders.

Section PullTail.

Variable env : Env.

(** The end of [InstallGitOps]. *)
Lemma pull_tail_spec f gt b s :
  gitTools f = Some gt ->
  exists k s3,
    (logger_V 3 pullingMessage ;;;
     err <- Retry (retrier f) (gitClient env f (Pull b)) ;;
     match err with
     | Some e => logger_Error e pullFailedMessage
     | None => ret tt
     end ;;;
     ret nil_error) s = (Ok None, s3) /\
    1 <= k <= attempts (retrier f) /\
    calls s3 = calls s ++ repeat (Pull b) k.
Proof.
  intro Hgt. rewrite (gitClient_configured env f gt _ Hgt).
  set (s0 := logged s [LogInfo 3 pullingMessage]).
  destruct (retry_call_err env (retrier f) (Pull b) s0) as (k & Hk & Heq & _).
  unfold logger_V. unfold bind at 1. unfold log at 1.
  change {| calls := calls s; logs := logs s ++ [LogInfo 3 pullingMessage] |} with s0.
  rewrite (bind_eq _ _ _ _ _ Heq).
  destruct (r_err (env (calls s0 ++ repeat (Pull b) (k - 1)) (Pull b))).
  - eexists k, _. split; [reflexivity|]. split; [exact Hk | reflexivity].
  - eexists k, _. split; [reflexivity|]. split; [exact Hk | reflexivity].
Qed.

End PullTail.




(* ================================================================== *)
(** ** Cleaning up the repository *)

Section Cleanup.

Variable env : Env.

Lemma count_calls_Forall_false p l :
  Forall (fun c => p c = false) l -> count_calls p l = 0.
Proof.
  unfold count_calls. induction 1 as [|c l Hc _ IH]; simpl; [reflexivity|].
  rewrite Hc. exact IH.
Qed.

(** [syncGitRepo] neither removes, commits nor pushes. *)
Lemma syncGitRepo_no_cleanup_call fc s r s1 :
  syncGitRepo env fc s = (r, s1) ->
  count_calls is_Remove (calls s1) = count_calls is_Remove (calls s) /\
  count_calls is_Commit (calls s1) = count_calls is_Commit (calls s) /\
  count_calls is_Push (calls s1) = count_calls is_Push (calls s).
Proof.
  intro H.
  assert (Hfp : adds_only no_cleanup_call (syncGitRepo env fc)).
  { apply adds_syncGitRepo; [intro p | |]; repeat split; reflexivity. }
  destruct (adds_grow no_cleanup_call _ _ _ _ Hfp H) as (l & Hl & HP).
  rewrite Hl, !count_calls_app.
  assert (count_calls is_Remove l = 0)
    by (apply count_calls_Forall_false; eapply Forall_impl; [|exact HP];
        intros c Hc; apply Hc).
  assert (count_calls is_Commit l = 0)
    by (apply count_calls_Forall_false; eapply Forall_impl; [|exact HP];
        intros c Hc; apply Hc).
  assert (count_calls is_Push l = 0)
    by (apply count_calls_Forall_false; eapply Forall_impl; [|exact HP];
        intros c Hc; apply Hc).
  lia.
Qed.

End Cleanup.




(* ================================================================== *)
(** ** Manifest generation *)

(** Runs the straight-line code in [H] down to the oracle's answers. *)
Ltac run_in H :=
  cbv beta iota delta
      [bind ret or_return call call_err log logger_V logger_Info onWriter
       templater_WriteToFile panic nil_error] in H;
  cbn [calls logs fst snd option_map] in H.

Ltac split_on_answers H :=
  repeat (run_in H;
          match type of H with
          | context [r_err ?x] =>
              let E := fresh "E" in destruct (r_err x) eqn:E
          | context [r_writer ?x] =>
              let E := fresh "E" in destruct (r_writer x) eqn:E
          | context [r_bool ?x] =>
              let E := fresh "E" in destruct (r_bool x) eqn:E
          end);
  run_in H; try discriminate H.

Section Manifests.

Variable env : Env.

Lemma writeEksaSystemFiles_skipped fc s :
  datacenterConfig fc = None -> machineConfigs fc = None ->
  writeEksaSystemFiles env fc s = (Ok None, s).
Proof. unfold writeEksaSystemFiles. intros -> ->. reflexivity. Qed.

(** The calls of a successful [writeEksaSystemFiles] that had something
    to write. *)
Lemma writeEksaSystemFiles_ok fc gt s s' :
  gitTools (fcFlux fc) = Some gt ->
  (datacenterConfig fc <> None \/ machineConfigs fc <> None) ->
  writeEksaSystemFiles env fc s = (Ok None, s') ->
  exists w content,
    calls s' = calls s ++ eksaManifestCalls (eksaSystemDir fc) w content.
Proof.
  intros Hgt Hsome H.
  unfold writeEksaSystemFiles, initEksaWriter, generateClusterConfigFile,
    generateEksaKustomizeFile, writerDir in H.
  rewrite Hgt in H.
  assert (Hbody :
            (match datacenterConfig fc, machineConfigs fc with
             | None, None => true
             | _, _ => false
             end) = false).
  { destruct (datacenterConfig fc), (machineConfigs fc); try reflexivity.
    destruct Hsome as [Hn|Hn]; exfalso; apply Hn; reflexivity. }
  destruct (datacenterConfig fc) as [d|], (machineConfigs fc) as [m|];
    try discriminate Hbody;
    run_in H; split_on_answers H;
    inversion H; subst; cbn [calls].
    all: eexists _, _; rewrite <- !app_assoc; reflexivity.
Qed.

(** The calls of a successful [writeFluxSystemFiles]. *)
Lemma writeFluxSystemFiles_ok fc gt s s' :
  gitTools (fcFlux fc) = Some gt ->
  writeFluxSystemFiles env fc s = (Ok None, s') ->
  exists w,
    calls s' = calls s ++ toolkitManifestCalls (fluxSystemDir fc) w (namespace fc)
                                               (VersionsBundle (clusterSpec fc)).
Proof.
  intros Hgt H.
  unfold writeFluxSystemFiles, initFluxWriter, generateFluxKustomizeFile,
    generateFluxSyncFile, generateFluxPatchFile, writerDir in H.
  rewrite Hgt in H.
  run_in H; split_on_answers H.
  inversion H; subst; cbn [calls].
  eexists; rewrite <- !app_assoc; reflexivity.
Qed.

Lemma validateLocal_ok fc gt s s' :
  gitTools (fcFlux fc) = Some gt ->
  validateLocalConfigPathDoesNotExist env fc s = (Ok None, s') ->
  calls s' = calls s ++
             if Managed (SpecCluster (clusterSpec fc)) then []
             else [FileExists (GoPath.Join [WriterDir gt; path fc])].
Proof.
  intros Hgt H.
  unfold validateLocalConfigPathDoesNotExist, writerDir, IsSelfManaged in H.
  rewrite Hgt in H.
  destruct (Managed (SpecCluster (clusterSpec fc))); cbn [negb] in H.
  - inversion H. rewrite app_nil_r. reflexivity.
  - run_in H; split_on_answers H. inversion H. reflexivity.
Qed.

Lemma pushToRemoteRepo_ok f gt path msg s s' :
  gitTools f = Some gt ->
  pushToRemoteRepo env f path msg s = (Ok None, s') ->
  exists k, 1 <= k <= attempts (retrier f) /\
            calls s' = calls s ++ Commit msg :: repeat Push k.
Proof.
  intros Hgt H.
  pose proof (pushToRemoteRepo_spec env f gt path msg s Hgt) as Hspec.
  destruct (r_err (env (calls s) (Commit msg))) as [e|].
  - rewrite Hspec in H. discriminate.
  - destruct Hspec as (k & Hk & Heq & _).
    rewrite Heq in H. inversion H. exists k. split; [exact Hk | reflexivity].
Qed.

(** On a managed cluster [commitFluxAndClusterConfigToGit] writes no
    manifest of the toolkit, whatever the collaborators answer. *)
Lemma commitFlux_managed_footprint fc :
  Managed (SpecCluster (clusterSpec fc)) = true ->
  adds_only (fun c => is_toolkit_write c = false)
            (commitFluxAndClusterConfigToGit env fc).
Proof.
  intro Hm. unfold commitFluxAndClusterConfigToGit, IsSelfManaged.
  rewrite Hm. cbn [negb]. unfold logger_Info, logger_V.
  set (P := fun c => is_toolkit_write c = false).
  pose proof (adds_validateLocal env P fc (fun p => eq_refl)).
  assert (adds_only P (writeEksaSystemFiles env fc)).
  { apply adds_writeEksaSystemFiles. intros c Hc. unfold P.
    destruct c; try reflexivity; try contradiction.
    destruct t; try reflexivity; contradiction. }
  pose proof (fun p => adds_gitClient env P (fcFlux fc) (Add p) eq_refl).
  pose proof (fun p m => adds_pushToRemoteRepo env P (fcFlux fc) p m eq_refl eq_refl).
  footprint env.
Qed.

End Manifests.

Section Generation.

Variable env : Env.

(** [commitFluxAndClusterConfigToGit] is the manifest generation followed,
    when it succeeded, by the staging and the push. *)
Lemma commitFlux_after_generation fc s st :
  generateManifests env fc s = (Ok None, st) ->
  commitFluxAndClusterConfigToGit env fc s = stageAndPush env fc st.
Proof.
  unfold generateManifests, commitFluxAndClusterConfigToGit, stageAndPush.
  intro H.
  apply bind_Ok_inv in H. destruct H as ([] & s0 & Hlog & H).
  apply or_return_nil_inv in H. destruct H as (sv & Hval & H).
  apply or_return_nil_inv in H. destruct H as (se & Heksa & H).
  apply or_return_nil_inv in H. destruct H as (st' & Htool & H).
  inversion H. subst st'.
  rewrite (bind_eq _ _ _ _ _ Hlog).
  rewrite (or_return_nil _ _ _ _ _ Hval).
  rewrite (or_return_nil _ _ _ _ _ Heksa).
  rewrite (or_return_nil _ _ _ _ _ Htool).
  reflexivity.
Qed.

(** The staging begins with the [Add] of the directory of the
    configuration path. *)
Lemma stageAndPush_begins_with_Add fc gt st :
  gitTools (fcFlux fc) = Some gt ->
  starts_with (Add (GoPath.Dir (ClusterConfigPath (SpecFluxConfig (clusterSpec fc)))))
              (stageAndPush env fc) st.
Proof.
  intro Hgt. unfold stageAndPush.
  rewrite (gitClient_configured env _ gt _ Hgt).
  apply starts_or_return.
  - exists []. reflexivity.
  - pose proof (fun p m => adds_pushToRemoteRepo env any_call (fcFlux fc) p m I I).
    unfold logger_V. footprint env.
Qed.

End Generation.




(* ================================================================== *)
(** ** Which errors an operation can return *)

Section ErrorKinds.

Variable env : Env.

Lemma fails_ret_nil Q : fails_only Q (ret nil_error).
Proof. intros s e s' H. discriminate. Qed.

Lemma fails_bind {A} Q (m : M A) (k : A -> M (option error)) :
  (forall a, fails_only Q (k a)) -> fails_only Q (bind m k).
Proof.
  intros Hk s e s' H. apply bind_Ok_inv in H.
  destruct H as (a & s1 & _ & H). exact (Hk a s1 e s' H).
Qed.

Lemma fails_or_return Q m w k :
  (forall e, Q (w e)) -> fails_only Q k -> fails_only Q (or_return m w k).
Proof.
  intros Hw Hk. unfold or_return. apply fails_bind.
  intros [err|]; [|exact Hk].
  intros s e s' H. inversion H. apply Hw.
Qed.

Lemma fails_or_return_same Q m k :
  fails_only Q m -> fails_only Q k -> fails_only Q (or_return m (fun err => err) k).
Proof.
  intros Hm Hk s e s' H. unfold or_return in H. apply bind_Ok_inv in H.
  destruct H as ([err|] & s1 & Hm1 & H).
  - inversion H. subst. exact (Hm _ _ _ Hm1).
  - exact (Hk s1 e s' H).
Qed.

Lemma fails_pushToRemoteRepo f path msg :
  fails_only (fun e => is_ConfigVersionControlFailedError e = true)
             (pushToRemoteRepo env f path msg).
Proof.
  unfold pushToRemoteRepo.
  apply fails_or_return; [reflexivity|].
  apply fails_or_return; [reflexivity|].
  apply fails_ret_nil.
Qed.

End ErrorKinds.

(** X1: every error [commitFluxAndClusterConfigToGit] returns is a
    [ConfigVersionControlFailedError], whichever step failed and whatever
    the collaborators answered. *)
Theorem commitFlux_fails_with_ConfigVersionControlFailedError env fc s e s' :
  commitFluxAndClusterConfigToGit env fc s = (Ok (Some e), s') ->
  is_ConfigVersionControlFailedError e = true.
Proof.
  revert s e s'.
  change (fails_only (fun e => is_ConfigVersionControlFailedError e = true)
                     (commitFluxAndClusterConfigToGit env fc)).
  unfold commitFluxAndClusterConfigToGit.
  apply fails_bind. intros _.
  apply fails_or_return; [reflexivity|].
  apply fails_or_return; [reflexivity|].
  apply fails_or_return; [reflexivity|].
  apply fails_or_return; [reflexivity|].
  apply fails_or_return_same; [apply fails_pushToRemoteRepo|].
  apply fails_bind. intros _. apply fails_ret_nil.
Qed.

Lemma commitFlux_fails_with_ConfigVersionControlFailedError_witness :
  exists e s',
    commitFluxAndClusterConfigToGit Scenario.env_offline
      (mkFluxForCluster Scenario.flux (Scenario.mgmtSpec Scenario.hosted)
                        Scenario.dc Scenario.mcs)
      Scenario.start = (Ok (Some e), s') /\
    is_ConfigVersionControlFailedError e = true.
Proof.
  eexists _, _.
  assert (H : commitFluxAndClusterConfigToGit Scenario.env_offline
                (mkFluxForCluster Scenario.flux (Scenario.mgmtSpec Scenario.hosted)
                                  Scenario.dc Scenario.mcs)
                Scenario.start
              = (Ok (Some Scenario.offline_commit_error), Scenario.offline_committed))
    by (vm_compute; reflexivity).
  split; [exact H|].
  exact (commitFlux_fails_with_ConfigVersionControlFailedError _ _ _ _ _ H).
Defined.

(** X2: every error [InstallGitOps] returns was formatted with [%v] by
    [InstallGitOps] itself: it is the failure of the hosted path under
    "installing GitHub gitops", or, after a hosted path that succeeded, the
    failure of the generic path under "installing generic git gitops".  So
    it is neither a [ConfigVersionControlFailedError] nor recognised by
    [errors.As] as a [RepositoryIsEmptyError], whatever failed underneath. *)
Theorem InstallGitOps_errors_are_flattened env f cluster spec dc mcs s e s' :
  InstallGitOps env f cluster spec dc mcs s = (Ok (Some e), s') ->
  let fc := mkFluxForCluster f spec dc mcs in
  ((exists cause,
       e = Errorf_v "installing GitHub gitops: %v" [] cause /\
       githubBranch env f cluster fc spec s = (Ok (Some cause), s')) \/
   (exists cause s1,
       e = Errorf_v "installing generic git gitops: %v" [] cause /\
       githubBranch env f cluster fc spec s = (Ok None, s1) /\
       genericGitBranch env f cluster fc spec s1 = (Ok (Some cause), s'))) /\
  is_flattened e = true /\
  is_ConfigVersionControlFailedError e = false /\
  errors_As_RepositoryIsEmpty e = false.
Proof.
  intros H fc.
  assert (Hor :
            (exists cause,
                e = Errorf_v "installing GitHub gitops: %v" [] cause /\
                githubBranch env f cluster fc spec s = (Ok (Some cause), s')) \/
            (exists cause s1,
                e = Errorf_v "installing generic git gitops: %v" [] cause /\
                githubBranch env f cluster fc spec s = (Ok None, s1) /\
                genericGitBranch env f cluster fc spec s1 = (Ok (Some cause), s'))).
  { unfold InstallGitOps in H. destruct (shouldSkipFlux f).
    - apply bind_Ok_inv in H. destruct H as (u & s0 & _ & H). discriminate.
    - fold fc in H. unfold or_return at 1 in H.
      apply bind_Ok_inv in H. destruct H as ([c|] & s1 & Hgh & H).
      + inversion H. subst. left. exists c. split; [reflexivity | exact Hgh].
      + unfold or_return at 1 in H.
        apply bind_Ok_inv in H. destruct H as ([c|] & s2 & Hg & H).
        * inversion H. subst. right. exists c, s1.
          split; [reflexivity|]. split; [exact Hgh | exact Hg].
        * exfalso.
          refine ((_ : fails_only (fun _ => False) _) s2 e s' H).
          apply fails_bind. intros _.
          apply fails_bind. intros err.
          apply fails_bind. intros _. apply fails_ret_nil. }
  split; [exact Hor|].
  destruct Hor as [(c & He & _) | (c & s1 & He & _)]; subst e; repeat split.
Qed.

Lemma InstallGitOps_errors_are_flattened_witness :
  exists e s',
    InstallGitOps Scenario.env_offline Scenario.flux Scenario.newCluster
      (Scenario.mgmtSpec Scenario.hosted) Scenario.dc Scenario.mcs Scenario.start
    = (Ok (Some e), s') /\
    is_ConfigVersionControlFailedError e = false.
Proof.
  eexists _, _.
  assert (H : InstallGitOps Scenario.env_offline Scenario.flux Scenario.newCluster
                (Scenario.mgmtSpec Scenario.hosted) Scenario.dc Scenario.mcs
                Scenario.start
              = (Ok (Some (Errorf_v "installing GitHub gitops: %v" []
                                    Scenario.offline_commit_error)),
                 Scenario.offline_installed))
    by (vm_compute; reflexivity).
  split; [exact H|].
  exact (proj1 (proj2 (proj2
           (InstallGitOps_errors_are_flattened _ _ _ _ _ _ _ _ _ H)))).
Defined.

(* ================================================================== *)
(** ** Cloning and synchronising the working copy *)

Section Cloning.

Variable env : Env.

(** The whole behaviour of [clone] on a configured cluster: [k] is the
    number of [Clone] calls. *)
Lemma clone_spec fc gt s :
  gitTools (fcFlux fc) = Some gt ->
  exists k,
    1 <= k <= attempts (retrier (fcFlux fc)) /\
    (forall j, j < k - 1 -> r_err (env (calls s ++ repeat Clone j) Clone) <> None) /\
    match r_err (env (calls s ++ repeat Clone (k - 1)) Clone) with
    | Some e =>
        k = attempts (retrier (fcFlux fc)) /\
        clone env fc s
        = (Ok (Some e), after (logged s [LogInfo 3 cloningMessage]) (repeat Clone k))
    | None =>
        clone env fc s
        = (Ok (r_err (env (calls s ++ repeat Clone k) (GitBranch (branch fc)))),
           after (logged (after (logged s [LogInfo 3 cloningMessage]) (repeat Clone k))
                         [LogInfo 3 branchingMessage])
                 [GitBranch (branch fc)])
    end.
Proof.
  intro Hgt. unfold clone. rewrite !(gitClient_configured env _ gt _ Hgt).
  set (s0 := logged s [LogInfo 3 cloningMessage]).
  destruct (retry_call_err env (retrier (fcFlux fc)) Clone s0)
    as (k & Hk & Heq & Hlast & Hprev).
  change (calls s0) with (calls s) in *.
  exists k. split; [exact Hk|]. split; [exact Hprev|].
  destruct (r_err (env (calls s ++ repeat Clone (k - 1)) Clone)) as [e|] eqn:E;
    unfold logger_V at 1; unfold bind at 1; unfold log at 1;
    fold cloningMessage;
    change {| calls := calls s; logs := logs s ++ [LogInfo 3 cloningMessage] |} with s0.
  - split; [apply Hlast; discriminate|].
    exact (or_return_err _ (fun err => err) _ _ _ _ Heq).
  - rewrite (or_return_nil _ _ _ _ _ Heq).
    unfold logger_V. unfold bind at 1. unfold log at 1. fold branchingMessage.
    set (s1 := {| calls := calls (after s0 (repeat Clone k));
                  logs := logs (after s0 (repeat Clone k)) ++ [LogInfo 3 branchingMessage] |}).
    destruct (r_err (env (calls s ++ repeat Clone k) (GitBranch (branch fc))))
      as [e|] eqn:Eb.
    + rewrite (check_call_err env _ _ _ s1 e Eb). reflexivity.
    + rewrite (check_call_nil env _ _ _ s1 Eb). reflexivity.
Qed.

(** The calls of a successful [clone]. *)
Lemma clone_ok_calls fc gt s s' :
  gitTools (fcFlux fc) = Some gt ->
  clone env fc s = (Ok None, s') ->
  exists k, 1 <= k <= attempts (retrier (fcFlux fc)) /\
            calls s' = calls s ++ repeat Clone k ++ [GitBranch (branch fc)].
Proof.
  intros Hgt H. destruct (clone_spec fc gt s Hgt) as (k & Hk & _ & Hcase).
  destruct (r_err (env (calls s ++ repeat Clone (k - 1)) Clone)).
  - destruct Hcase as [_ Heq]. rewrite Heq in H. discriminate.
  - rewrite Hcase in H. inversion H.
    exists k. split; [exact Hk|]. cbn [calls after logged].
    rewrite <- app_assoc. reflexivity.
Qed.

End Cloning.

(** X3: on a configured cluster [clone] calls [Clone] under retry and
    switches to the configured branch only after a [Clone] that succeeded:
    when every attempt failed the error of the last is returned as it is and
    [Branch] is never called; otherwise [Branch] is called once and its
    outcome is the result. *)
Theorem clone_retries_then_branches env fc gt s :
  gitTools (fcFlux fc) = Some gt ->
  exists k r s',
    clone env fc s = (Ok r, s') /\
    1 <= k <= attempts (retrier (fcFlux fc)) /\
    match r_err (env (calls s ++ repeat Clone (k - 1)) Clone) with
    | Some e =>
        k = attempts (retrier (fcFlux fc)) /\ r = Some e /\
        calls s' = calls s ++ repeat Clone k
    | None =>
        r = r_err (env (calls s ++ repeat Clone k) (GitBranch (branch fc))) /\
        calls s' = calls s ++ repeat Clone k ++ [GitBranch (branch fc)]
    end /\
    count_calls is_Clone (calls s') = count_calls is_Clone (calls s) + k.
Proof.
  intro Hgt. destruct (clone_spec env fc gt s Hgt) as (k & Hk & _ & Hcase).
  destruct (r_err (env (calls s ++ repeat Clone (k - 1)) Clone)) as [e|] eqn:E.
  - destruct Hcase as [Hn Heq].
    exists k, (Some e), (after (logged s [LogInfo 3 cloningMessage]) (repeat Clone k)).
    rewrite E.
    split; [exact Heq|]. split; [exact Hk|].
    split; [repeat split; assumption|].
    cbn [calls after logged].
    rewrite count_calls_app, (count_calls_repeat_true is_Clone Clone k eq_refl).
    reflexivity.
  - eexists k, _, _. rewrite E.
    split; [exact Hcase|]. split; [exact Hk|].
    split.
    + split; [reflexivity|]. cbn [calls after logged].
      rewrite <- app_assoc. reflexivity.
    + cbn [calls after logged].
      rewrite !count_calls_app, (count_calls_repeat_true is_Clone Clone k eq_refl).
      cbn. lia.
Qed.

Lemma clone_retries_then_branches_witness :
  exists s',
    clone Scenario.env_clone_denied Scenario.generic_fc Scenario.start
    = (Ok (Some (Opaque "permission denied")), s') /\
    calls s' = repeat Clone 5.
Proof.
  destruct (clone_retries_then_branches Scenario.env_clone_denied
              Scenario.generic_fc Scenario.tools Scenario.start eq_refl)
    as (k & r & s' & Heq & Hk & Hcase & _).
  assert (Hlast : r_err (Scenario.env_clone_denied
                           (calls Scenario.start ++ repeat Clone (k - 1)) Clone)
                  = Some (Opaque "permission denied")) by reflexivity.
  rewrite Hlast in Hcase. destruct Hcase as (Hn & Hr & Hcalls).
  subst r. exists s'. split; [exact Heq|].
  rewrite Hcalls, Hn. reflexivity.
Defined.

(* ================================================================== *)
(** ** More on the provider repository *)

Section MoreProvisioning.

Variable env : Env.

(** A repository lookup that ended with an error used up every attempt. *)
Lemma describeRepo_failed fc s r e s1 :
  describeRepo env fc s = (Ok (r, Some e), s1) ->
  s1 = after s (repeat GetRepo (attempts (retrier (fcFlux fc)))).
Proof.
  unfold describeRepo, RetryCapturing, gitProvider.
  destruct (gitTools (fcFlux fc)) as [gt|].
  2:{ rewrite retry_panic. discriminate. }
  destruct (Provider gt).
  2:{ rewrite retry_panic. discriminate. }
  destruct (retry_call env (fun r => (r_repo r, r_err r)) snd GetRepo
              (pred (maxAttempts (retrier (fcFlux fc)))) s)
    as (j & Hj & Heq & Hlast & _).
  rewrite Heq. intro H. inversion H as [[Hr He Hs]].
  cbn [snd] in Hlast. rewrite He in Hlast.
  rewrite (Hlast ltac:(discriminate)). reflexivity.
Qed.

End MoreProvisioning.

(** X4: when the repository lookup finds the repository and [clone]
    succeeds, [setupProviderRepository] returns nil and is done: the calls
    are the [GetRepo] attempts, the [Clone] attempts and one [Branch];
    nothing is created remotely and nothing is initialised locally. *)
Theorem setupProviderRepository_clones_existing_repo env fc s s1 s2 repo :
  describeRepo env fc s = (Ok (Some repo, None), s1) ->
  clone env fc s1 = (Ok None, s2) ->
  setupProviderRepository env fc s = (Ok None, s2) /\
  (exists j k,
      1 <= j <= attempts (retrier (fcFlux fc)) /\
      1 <= k <= attempts (retrier (fcFlux fc)) /\
      calls s2 = calls s ++ repeat GetRepo j ++ repeat Clone k
                 ++ [GitBranch (branch fc)]) /\
  count_calls is_CreateRepo (calls s2) = count_calls is_CreateRepo (calls s) /\
  count_calls is_Init (calls s2) = count_calls is_Init (calls s) /\
  count_calls is_Commit (calls s2) = count_calls is_Commit (calls s).
Proof.
  intros Hd Hc.
  destruct (describeRepo_inv env fc s _ s1 Hd) as (gt & j & Hgt & _ & Hj & Hs1 & _).
  destruct (clone_ok_calls env fc gt s1 s2 Hgt Hc) as (k & Hk & Hcalls).
  assert (Hall : calls s2 = calls s ++ repeat GetRepo j ++ repeat Clone k
                            ++ [GitBranch (branch fc)]).
  { rewrite Hcalls, Hs1. cbn [calls after]. rewrite <- app_assoc. reflexivity. }
  split.
  { unfold setupProviderRepository.
    rewrite (bind_eq _ _ _ _ _ Hd). cbn [fst snd].
    rewrite (bind_eq _ _ _ _ _ Hc). reflexivity. }
  split; [exists j, k; auto|].
  rewrite Hall, !count_calls_app.
  rewrite !(count_calls_repeat_false is_CreateRepo) by reflexivity.
  rewrite !(count_calls_repeat_false is_Init) by reflexivity.
  rewrite !(count_calls_repeat_false is_Commit) by reflexivity.
  cbn. repeat split; lia.
Qed.

Lemma setupProviderRepository_clones_existing_repo_witness :
  setupProviderRepository Scenario.env_checked_out
    (mkFluxForCluster Scenario.flux (Scenario.mgmtSpec Scenario.hosted)
                      Scenario.dc Scenario.mcs)
    Scenario.start
  = (Ok None, Scenario.checked_out_cloned).
Proof.
  assert (H1 : describeRepo Scenario.env_checked_out
                 (mkFluxForCluster Scenario.flux (Scenario.mgmtSpec Scenario.hosted)
                                   Scenario.dc Scenario.mcs)
                 Scenario.start
               = (Ok (Some {| repoName := "fleet" |}, None),
                  after Scenario.start [GetRepo]))
    by (vm_compute; reflexivity).
  assert (H2 : clone Scenario.env_checked_out
                 (mkFluxForCluster Scenario.flux (Scenario.mgmtSpec Scenario.hosted)
                                   Scenario.dc Scenario.mcs)
                 (after Scenario.start [GetRepo])
               = (Ok None, Scenario.checked_out_cloned))
    by (vm_compute; reflexivity).
  exact (proj1 (setupProviderRepository_clones_existing_repo _ _ _ _ _ _ H1 H2)).
Defined.

(** X5: when the repository lookup fails on every attempt,
    [setupProviderRepository] returns the last lookup error wrapped with
    [%w] ("failed to describe repo"), which is not a
    [ConfigVersionControlFailedError] and keeps the cause visible to
    [errors.As]; [GetRepo] was called once per attempt and nothing else was
    called. *)
Theorem setupProviderRepository_describe_failure env fc s r e s1 :
  describeRepo env fc s = (Ok (r, Some e), s1) ->
  let err := Errorf_w "failed to describe repo: %w" [] e in
  setupProviderRepository env fc s = (Ok (Some err), s1) /\
  calls s1 = calls s ++ repeat GetRepo (attempts (retrier (fcFlux fc))) /\
  is_ConfigVersionControlFailedError err = false /\
  errors_As_RepositoryIsEmpty err = errors_As_RepositoryIsEmpty e.
Proof.
  intros Hd err.
  split.
  { unfold setupProviderRepository. rewrite (bind_eq _ _ _ _ _ Hd). reflexivity. }
  split.
  { rewrite (describeRepo_failed env fc s r e s1 Hd). reflexivity. }
  split; reflexivity.
Qed.

Lemma setupProviderRepository_describe_failure_witness :
  setupProviderRepository Scenario.env_provider_down
    (mkFluxForCluster Scenario.flux (Scenario.mgmtSpec Scenario.hosted)
                      Scenario.dc Scenario.mcs)
    Scenario.start
  = (Ok (Some (Errorf_w "failed to describe repo: %w" [] (Opaque "401"))),
     after Scenario.start (repeat GetRepo 5)).
Proof.
  assert (H1 : describeRepo Scenario.env_provider_down
                 (mkFluxForCluster Scenario.flux (Scenario.mgmtSpec Scenario.hosted)
                                   Scenario.dc Scenario.mcs)
                 Scenario.start
               = (Ok (None, Some (Opaque "401")),
                  after Scenario.start (repeat GetRepo 5)))
    by (vm_compute; reflexivity).
  exact (proj1 (setupProviderRepository_describe_failure _ _ _ _ _ _ H1)).
Defined.

(* ================================================================== *)
(** ** Synchronising and updating *)

Section Updating.

Variable env : Env.

Lemma adds_UpdateGitEksaSpec f spec dc mcs :
  adds_only git_update_call (UpdateGitEksaSpec env f spec dc mcs).
Proof.
  unfold UpdateGitEksaSpec, logger_Info, logger_V.
  set (fc := mkFluxForCluster f spec dc mcs).
  assert (adds_only git_update_call (syncGitRepo env fc))
    by (apply adds_syncGitRepo; [intro p | |]; repeat split).
  assert (adds_only git_update_call (writeEksaSystemFiles env fc)).
  { apply adds_writeEksaSystemFiles. intros c Hc.
    destruct c; try contradiction; try (repeat split; reflexivity).
    destruct t; try contradiction. repeat split; reflexivity. }
  assert (forall p, adds_only git_update_call (gitClient env f (Add p)))
    by (intro p; apply adds_gitClient; repeat split).
  assert (forall p m, adds_only git_update_call (pushToRemoteRepo env f p m))
    by (intros p m; apply adds_pushToRemoteRepo; repeat split).
  footprint env.
Qed.

Lemma count_calls_unchanged (P : Call -> Prop) p l :
  (forall c, P c -> p c = false) -> Forall P l -> count_calls p l = 0.
Proof.
  intros HP HF. apply count_calls_Forall_false.
  eapply Forall_impl; [|exact HF]. exact HP.
Qed.

End Updating.

(** X6: on a configured cluster [syncGitRepo] asks whether the working
    copy has a [.git] directory.  If it has, the only other call is the
    switch to the configured branch; if not, [clone] runs.  It never pulls,
    and every error it returns was formatted with [%v], so that even an
    empty remote repository is a plain failure here and not recognised by
    [errors.As]. *)
Theorem syncGitRepo_switches_or_clones env fc gt s :
  gitTools (fcFlux fc) = Some gt ->
  let probe := FileExists (GoPath.Join [WriterDir gt; ".git"]) in
  exists r s',
    syncGitRepo env fc s = (Ok r, s') /\
    (forall e, r = Some e ->
               is_flattened e = true /\ errors_As_RepositoryIsEmpty e = false) /\
    count_calls is_Pull (calls s') = count_calls is_Pull (calls s) /\
    if r_bool (env (calls s) probe) then
      calls s' = calls s ++ [probe; GitBranch (branch fc)] /\
      r = option_map
            (fun e => Errorf_v "failed to switch to git branch %s: %v" [branch fc] e)
            (r_err (env (calls s ++ [probe]) (GitBranch (branch fc))))
    else
      exists rc,
        clone env fc (after s [probe]) = (Ok rc, s') /\
        r = option_map (fun e => Errorf_v "failed cloning git repo: %v" [] e) rc.
Proof.
  intros Hgt probe.
  assert (Hrun : syncGitRepo env fc s
                 = (if negb (r_bool (env (calls s) probe)) then
                      check clone env fc
                        wrapping (fun err => Errorf_v "failed cloning git repo: %v" [] err) ;;
                      ret nil_error
                    else
                      check call_err env (GitBranch (branch fc))
                        wrapping (fun err => Errorf_v "failed to switch to git branch %s: %v"
                                                      [branch fc] err) ;;
                      ret nil_error) (after s [probe])).
  { unfold syncGitRepo, writerDir. rewrite Hgt.
    rewrite (gitClient_configured env _ gt _ Hgt). reflexivity. }
  assert (Hpull : forall r s', syncGitRepo env fc s = (r, s') ->
                               count_calls is_Pull (calls s') = count_calls is_Pull (calls s)).
  { intros r s' H.
    assert (Hfp : adds_only git_update_call (syncGitRepo env fc))
      by (apply adds_syncGitRepo; [intro p | |]; repeat split).
    destruct (adds_grow git_update_call _ _ _ _ Hfp H) as (l & Hl & HP).
    rewrite Hl, count_calls_app.
    rewrite (count_calls_unchanged git_update_call is_Pull l); [lia | | exact HP].
    intros c Hc. apply Hc. }
  destruct (r_bool (env (calls s) probe)) eqn:Eex; cbn [negb] in Hrun.
  - destruct (r_err (env (calls s ++ [probe]) (GitBranch (branch fc)))) as [e|] eqn:Eb.
    + rewrite (check_call_err env _ _ _ (after s [probe]) e Eb), after_after in Hrun.
      eexists _, _. split; [exact Hrun|].
      split; [intros e' He; inversion He; split; reflexivity|].
      split; [exact (Hpull _ _ Hrun)|].
      split; reflexivity.
    + rewrite (check_call_nil env _ _ _ (after s [probe]) Eb), after_after in Hrun.
      eexists _, _. split; [exact Hrun|].
      split; [discriminate|].
      split; [exact (Hpull _ _ Hrun)|].
      split; reflexivity.
  - destruct (clone_spec env fc gt (after s [probe]) Hgt) as (k & _ & _ & Hcase).
    assert (Hclone : exists rc sc, clone env fc (after s [probe]) = (Ok rc, sc)).
    { destruct (r_err (env (calls (after s [probe]) ++ repeat Clone (k - 1)) Clone)).
      - destruct Hcase as [_ Heq]. eexists _, _. exact Heq.
      - eexists _, _. exact Hcase. }
    destruct Hclone as (rc & sc & Hclone).
    destruct rc as [e|].
    + rewrite (or_return_err _ _ _ _ _ _ Hclone) in Hrun.
      eexists _, _. split; [exact Hrun|].
      split; [intros e' He; inversion He; split; reflexivity|].
      split; [exact (Hpull _ _ Hrun)|].
      exists (Some e). split; [exact Hclone | reflexivity].
    + rewrite (or_return_nil _ _ _ _ _ Hclone) in Hrun.
      eexists _, _. split; [exact Hrun|].
      split; [discriminate|].
      split; [exact (Hpull _ _ Hrun)|].
      exists None. split; [exact Hclone | reflexivity].
Qed.

Lemma syncGitRepo_switches_or_clones_witness :
  exists s',
    syncGitRepo Scenario.env_checked_out
      (mkFluxForCluster Scenario.flux (Scenario.mgmtSpec Scenario.hosted) None None)
      Scenario.start = (Ok None, s') /\
    calls s' = [FileExists "/tmp/fleet/.git"; GitBranch "main"].
Proof.
  pose proof (syncGitRepo_switches_or_clones Scenario.env_checked_out
                (mkFluxForCluster Scenario.flux (Scenario.mgmtSpec Scenario.hosted)
                                  None None)
                Scenario.tools Scenario.start eq_refl) as H.
  cbv zeta in H. destruct H as (r & s' & Heq & _ & _ & Hcase).
  match type of Hcase with
  | (if ?c then _ else _) => replace c with true in Hcase by (vm_compute; reflexivity)
  end.
  destruct Hcase as [Hcalls Hr].
  assert (r = None) by (rewrite Hr; vm_compute; reflexivity). subst r.
  exists s'. split; [exact Heq|]. rewrite Hcalls. vm_compute. reflexivity.
Defined.



(* ================================================================== *)
(** ** Toolkit control and validations *)

(** X8: on a configured cluster [PauseGitOpsKustomization] and
    [ResumeGitOpsKustomization] call [SuspendKustomization] and
    [ResumeKustomization] under retry and return the outcome of the last
    attempt, while [ForceReconcileGitRepo] makes its call exactly once, also
    when it fails; none of them touches git. *)
Theorem toolkit_control_operations env f gt cluster spec s :
  gitTools f = Some gt ->
  let n := attempts (retrier f) in
  (exists k,
      1 <= k <= n /\
      PauseGitOpsKustomization env f cluster spec s
      = (Ok (r_err (env (calls s ++ repeat SuspendKustomization (k - 1))
                        SuspendKustomization)),
         after (logged s [LogInfo 3 pauseMessage]) (repeat SuspendKustomization k)) /\
      (r_err (env (calls s ++ repeat SuspendKustomization (k - 1))
                  SuspendKustomization) <> None -> k = n)) /\
  (exists k,
      1 <= k <= n /\
      ResumeGitOpsKustomization env f cluster spec s
      = (Ok (r_err (env (calls s ++ repeat ResumeKustomization (k - 1))
                        ResumeKustomization)),
         after (logged s [LogInfo 3 resumeMessage]) (repeat ResumeKustomization k)) /\
      (r_err (env (calls s ++ repeat ResumeKustomization (k - 1))
                  ResumeKustomization) <> None -> k = n)) /\
  (let c := FluxForceReconcileGitRepo (SystemNamespace (SpecFluxConfig spec)) in
   ForceReconcileGitRepo env f cluster spec s
   = (Ok (r_err (env (calls s) c)), after s [c])).
Proof.
  intros Hgt n.
  unfold PauseGitOpsKustomization, ResumeGitOpsKustomization,
    ForceReconcileGitRepo, shouldSkipFlux.
  rewrite Hgt.
  split; [|split].
  - destruct (retry_call_err env (retrier f) SuspendKustomization
                             (logged s [LogInfo 3 pauseMessage]))
      as (k & Hk & Heq & Hlast & _).
    exists k. split; [exact Hk|]. split; [exact Heq | exact Hlast].
  - destruct (retry_call_err env (retrier f) ResumeKustomization
                             (logged s [LogInfo 3 resumeMessage]))
      as (k & Hk & Heq & Hlast & _).
    exists k. split; [exact Hk|]. split; [exact Heq | exact Hlast].
  - reflexivity.
Qed.

Lemma toolkit_control_operations_witness :
  ForceReconcileGitRepo Scenario.env_toolkit_down Scenario.flux Scenario.newCluster
    (Scenario.mgmtSpec Scenario.hosted) Scenario.start
  = (Ok None, after Scenario.start [FluxForceReconcileGitRepo "flux-system"]).
Proof.
  exact (proj2 (proj2 (toolkit_control_operations Scenario.env_toolkit_down
                         Scenario.flux Scenario.tools Scenario.newCluster
                         (Scenario.mgmtSpec Scenario.hosted) Scenario.start eq_refl))).
Defined.

(** X9: on a configured cluster [Validations] returns one validation,
    named "Flux path".  Run on a self-managed cluster with a provider it
    asks the provider once whether the configuration path exists in the
    remote repository, and passes exactly when the provider answers
    without error that it does not; on a managed cluster, or without a
    provider, it passes without any call. *)
Theorem Validations_checks_remote_path env f gt spec :
  gitTools f = Some gt ->
  let fc := mkFluxForCluster f spec None None in
  let probe := PathExists (owner fc) (repository fc) (branch fc) (path fc) in
  exists v,
    Validations env f spec = [v] /\
    forall s,
    exists res s',
      v s = (Ok res, s') /\
      vName res = "Flux path" /\
      if negb (Managed (SpecCluster spec)) && Provider gt then
        calls s' = calls s ++ [probe] /\
        (vErr res = None <->
         r_err (env (calls s) probe) = None /\ r_bool (env (calls s) probe) = false)
      else s' = s /\ vErr res = None.
Proof.
  intros Hgt fc probe.
  unfold Validations, shouldSkipFlux. rewrite Hgt. fold fc.
  eexists. split; [reflexivity|].
  intro s. unfold validateRemoteConfigPathDoesNotExist, IsSelfManaged.
  change (SpecCluster (clusterSpec fc)) with (SpecCluster spec).
  change (gitTools (fcFlux fc)) with (gitTools f). rewrite Hgt.
  destruct (Managed (SpecCluster spec)); cbn [negb andb].
  - eexists _, _. split; [reflexivity|]. repeat split.
  - destruct (Provider gt).
    + fold probe. unfold bind at 1. unfold bind at 1. rewrite call_eq.
      destruct (r_err (env (calls s) probe)) as [e|] eqn:Ee.
      * eexists _, _. split; [reflexivity|]. split; [reflexivity|].
        split; [reflexivity|]. cbn.
        split; [discriminate | intros [H _]; discriminate].
      * destruct (r_bool (env (calls s) probe)) eqn:Eb.
        -- eexists _, _. split; [reflexivity|]. split; [reflexivity|].
           split; [reflexivity|]. cbn.
           split; [discriminate | intros [_ H]; discriminate].
        -- eexists _, _. split; [reflexivity|]. split; [reflexivity|].
           split; [reflexivity|]. cbn. split; auto.
    + eexists _, _. split; [reflexivity|]. repeat split.
Qed.

Lemma Validations_checks_remote_path_witness :
  exists res s',
    runValidations (Validations Scenario.env_checked_out Scenario.flux
                      (Scenario.mgmtSpec Scenario.hosted)) Scenario.start
    = (Ok [res], s') /\
    vErr res = None /\
    calls s' = [PathExists "octo" "fleet" "main" "clusters/mgmt"].
Proof.
  destruct (Validations_checks_remote_path Scenario.env_checked_out Scenario.flux
              Scenario.tools (Scenario.mgmtSpec Scenario.hosted) eq_refl)
    as (v & Hv & Hrun).
  destruct (Hrun Scenario.start) as (res & s' & Heq & _ & Hcase).
  cbn [negb andb Scenario.mgmtSpec SpecCluster Managed Scenario.tools Provider] in Hcase.
  destruct Hcase as [Hcalls Hiff].
  exists res, s'. split.
  - rewrite Hv. cbn [runValidations]. unfold bind at 1. rewrite Heq. reflexivity.
  - split; [apply Hiff; split; reflexivity | exact Hcalls].
Defined.

(* ================================================================== *)
(** ** More on installation *)

Section GitSide.

Variable env : Env.
Variable P : Call -> Prop.
Hypothesis git_side : forall c, is_flux_call c = false -> P c.

Lemma adds_git_side_gitClient f c :
  is_flux_call c = false -> adds_only P (gitClient env f c).
Proof. intro H. apply adds_gitClient. apply git_side. exact H. Qed.

Lemma adds_git_side_writeFluxSystemFiles fc :
  adds_only P (writeFluxSystemFiles env fc).
Proof.
  unfold writeFluxSystemFiles, initFluxWriter, writerDir,
    generateFluxKustomizeFile, generateFluxSyncFile, generateFluxPatchFile,
    templater_WriteToFile, logger_V.
  assert (forall d, P (WithDir d)) by (intro; apply git_side; reflexivity).
  assert (forall w, P (CleanUpTemp w)) by (intro; apply git_side; reflexivity).
  assert (forall w t v n, P (WriteToFile w t v n))
    by (intros; apply git_side; reflexivity).
  footprint env.
Qed.

Lemma adds_git_side_commitFlux fc :
  adds_only P (commitFluxAndClusterConfigToGit env fc).
Proof.
  unfold commitFluxAndClusterConfigToGit, logger_Info, logger_V.
  pose proof (adds_validateLocal env P fc (fun p => git_side (FileExists p) eq_refl)).
  assert (adds_only P (writeEksaSystemFiles env fc)).
  { apply adds_writeEksaSystemFiles. intros c Hc. apply git_side.
    destruct c; try contradiction; reflexivity. }
  pose proof (adds_git_side_writeFluxSystemFiles fc).
  pose proof (fun p => adds_git_side_gitClient (fcFlux fc) (Add p) eq_refl).
  pose proof (fun p m => adds_pushToRemoteRepo env P (fcFlux fc) p m
                           (git_side (Commit m) eq_refl) (git_side Push eq_refl)).
  footprint env.
Qed.

Lemma adds_git_side_setupProviderRepository fc :
  adds_only P (setupProviderRepository env fc).
Proof.
  unfold setupProviderRepository, describeRepo, RetryCapturing,
    createRemoteRepository, initializeLocalRepository, Retry, logger_V.
  pose proof (adds_clone env P fc (git_side Clone eq_refl)
                        (git_side (GitBranch (branch fc)) eq_refl)).
  pose proof (adds_gitProvider env P (fcFlux fc) GetRepo (git_side GetRepo eq_refl)).
  pose proof (fun o => adds_gitProvider env P (fcFlux fc) (CreateRepo o)
                         (git_side (CreateRepo o) eq_refl)).
  pose proof (adds_git_side_gitClient (fcFlux fc) Init eq_refl).
  pose proof (fun m => adds_git_side_gitClient (fcFlux fc) (Commit m) eq_refl).
  pose proof (fun b => adds_git_side_gitClient (fcFlux fc) (GitBranch b) eq_refl).
  footprint env.
Qed.

End GitSide.

(** X10: on an existing management cluster neither install path calls the
    flux executable: no bootstrap, and so no uninstall either, whatever the
    other collaborators answer. *)
Theorem existing_management_cluster_is_not_bootstrapped
        env p f cluster fc spec s :
  ExistingManagement cluster = true ->
  count_calls is_flux_call (calls (snd (installPath env p f cluster fc spec s)))
  = count_calls is_flux_call (calls s).
Proof.
  intro Hex.
  set (P := fun c => is_flux_call c = false).
  assert (HP : forall c, is_flux_call c = false -> P c) by (intros c H; exact H).
  assert (Hfp : adds_only P (installPath env p f cluster fc spec)).
  { pose proof (adds_git_side_commitFlux env P HP fc).
    pose proof (adds_git_side_setupProviderRepository env P HP fc).
    pose proof (adds_clone env P fc eq_refl eq_refl).
    destruct p; unfold installPath, installGitOpsGithub, installGitOpsGenericGit;
      rewrite Hex; cbn [negb]; footprint env. }
  destruct (Hfp s) as (l & Hl & HF).
  rewrite Hl, count_calls_app, (count_calls_Forall_false is_flux_call l HF). lia.
Qed.

Lemma existing_management_cluster_is_not_bootstrapped_witness :
  count_calls is_flux_call
    (calls (snd (installPath Scenario.env_toolkit_down Hosted Scenario.flux
                   Scenario.existingCluster
                   (mkFluxForCluster Scenario.flux (Scenario.mgmtSpec Scenario.hosted)
                                     Scenario.dc Scenario.mcs)
                   (Scenario.mgmtSpec Scenario.hosted) Scenario.start)))
  = 0.
Proof.
  exact (existing_management_cluster_is_not_bootstrapped
           Scenario.env_toolkit_down Hosted Scenario.flux Scenario.existingCluster
           (mkFluxForCluster Scenario.flux (Scenario.mgmtSpec Scenario.hosted)
                             Scenario.dc Scenario.mcs)
           (Scenario.mgmtSpec Scenario.hosted) Scenario.start eq_refl).
Defined.

(** X11: when the hosted install path fails, [InstallGitOps] returns its
    error under "installing GitHub gitops" and stops there: the generic
    path does not run and nothing is pulled. *)
Theorem InstallGitOps_stops_at_hosted_failure
        env f gt cluster spec dc mcs gh s e s1 :
  gitTools f = Some gt ->
  Github (SpecFluxConfig spec) = Some gh ->
  installGitOpsGithub env f cluster (mkFluxForCluster f spec dc mcs) spec s
  = (Ok (Some e), s1) ->
  InstallGitOps env f cluster spec dc mcs s
  = (Ok (Some (Errorf_v "installing GitHub gitops: %v" [] e)), s1).
Proof.
  intros Hgt Hgh Hhosted.
  unfold InstallGitOps, shouldSkipFlux. rewrite Hgt.
  assert (Hb : githubBranch env f cluster (mkFluxForCluster f spec dc mcs) spec s
               = (Ok (Some e), s1))
    by (unfold githubBranch; rewrite Hgh; exact Hhosted).
  exact (or_return_err _ _ _ _ _ _ Hb).
Qed.

Lemma InstallGitOps_stops_at_hosted_failure_witness :
  InstallGitOps Scenario.env_provider_down Scenario.flux Scenario.newCluster
    (Scenario.mgmtSpec Scenario.both) Scenario.dc Scenario.mcs Scenario.start
  = (Ok (Some (Errorf_v "installing GitHub gitops: %v" []
                        (Errorf_w "failed to describe repo: %w" [] (Opaque "401")))),
     after Scenario.start (repeat GetRepo 5)).
Proof.
  assert (H1 : installGitOpsGithub Scenario.env_provider_down Scenario.flux
                 Scenario.newCluster
                 (mkFluxForCluster Scenario.flux (Scenario.mgmtSpec Scenario.both)
                                   Scenario.dc Scenario.mcs)
                 (Scenario.mgmtSpec Scenario.both) Scenario.start
               = (Ok (Some (Errorf_w "failed to describe repo: %w" [] (Opaque "401"))),
                  after Scenario.start (repeat GetRepo 5)))
    by (vm_compute; reflexivity).
  exact (InstallGitOps_stops_at_hosted_failure
           Scenario.env_provider_down Scenario.flux Scenario.tools
           Scenario.newCluster (Scenario.mgmtSpec Scenario.both)
           Scenario.dc Scenario.mcs
           {| Owner := "octo"; Repository := "fleet"; Personal := true |}
           Scenario.start _ _ eq_refl eq_refl H1).
Defined.



(** X13: on a configured self-managed cluster whose configuration path
    already exists under the writer's directory,
    [commitFluxAndClusterConfigToGit] fails before anything is written,
    added or committed: the only call made is the check of the path. *)
Theorem commitFlux_refuses_existing_local_path env fc gt s :
  gitTools (fcFlux fc) = Some gt ->
  Managed (SpecCluster (clusterSpec fc)) = false ->
  let p := GoPath.Join [WriterDir gt; ClusterConfigPath (SpecFluxConfig (clusterSpec fc))] in
  r_bool (env (calls s) (FileExists p)) = true ->
  commitFluxAndClusterConfigToGit env fc s
  = (Ok (Some (ConfigVersionControlFailedError
                 (Errorf "a cluster configuration file already exists at path %s" [p]))),
     after (logged s [LogInfo 0 addingMessage]) [FileExists p]).
Proof.
  intros Hgt Hm p Hex.
  unfold commitFluxAndClusterConfigToGit, logger_Info.
  unfold bind at 1. unfold log at 1.
  set (s0 := {| calls := calls s; logs := logs s ++ [LogInfo 0 "Adding cluster configuration files to Git"] |}).
  assert (Hval : validateLocalConfigPathDoesNotExist env fc s0
                 = (Ok (Some (Errorf "a cluster configuration file already exists at path %s" [p])),
                    after s0 [FileExists p])).
  { unfold validateLocalConfigPathDoesNotExist, IsSelfManaged, writerDir.
    rewrite Hm, Hgt. cbn [negb]. unfold bind at 1. unfold ret at 1.
    unfold bind at 1. rewrite call_eq.
    change (GoPath.Join [WriterDir gt; path fc]) with p.
    change (calls s0) with (calls s). rewrite Hex. reflexivity. }
  rewrite (or_return_err _ _ _ _ _ _ Hval). reflexivity.
Qed.

Lemma commitFlux_refuses_existing_local_path_witness :
  fst (commitFluxAndClusterConfigToGit Scenario.env_checked_out
         (mkFluxForCluster Scenario.flux (Scenario.mgmtSpec Scenario.hosted)
                           Scenario.dc Scenario.mcs)
         Scenario.start)
  = Ok (Some (ConfigVersionControlFailedError
                (Errorf "a cluster configuration file already exists at path %s"
                        ["/tmp/fleet/clusters/mgmt"]))).
Proof.
  rewrite (commitFlux_refuses_existing_local_path Scenario.env_checked_out
             (mkFluxForCluster Scenario.flux (Scenario.mgmtSpec Scenario.hosted)
                               Scenario.dc Scenario.mcs)
             Scenario.tools Scenario.start eq_refl eq_refl eq_refl).
  vm_compute. reflexivity.
Defined.

(** X14: [initEksaWriter] cleans the writer up before it looks at the error
    of [WithDir]: when [WithDir] hands back a nil writer,
    [writeEksaSystemFiles] panics right after that call, with or without an
    error from [WithDir], and writes nothing. *)
Theorem writeEksaSystemFiles_panics_on_nil_writer env fc gt s :
  gitTools (fcFlux fc) = Some gt ->
  (datacenterConfig fc <> None \/ machineConfigs fc <> None) ->
  r_writer (env (calls s) (WithDir (eksaSystemDir fc))) = None ->
  exists s',
    writeEksaSystemFiles env fc s = (Panic, s') /\
    calls s' = calls s ++ [WithDir (eksaSystemDir fc)].
Proof.
  intros Hgt Hsome Hnil.
  unfold writeEksaSystemFiles, initEksaWriter, writerDir. rewrite Hgt.
  assert (Hrun :
            (logger_V 3 "Generating eks-a cluster manifest files..." ;;;
             we <- (_ <- ret (WriterDir gt) ;;
                    r <- call env (WithDir (eksaSystemDir fc)) ;;
                    onWriter (r_writer r) (fun w => call env (CleanUpTemp w)) ;;;
                    ret (r_writer r,
                         option_map (fun e => Errorf_v "creating %s directory: %v"
                                                       [eksaSystemDir fc] e)
                                    (r_err r))) ;;
             match snd we with
             | Some err => ret (Some err)
             | None =>
                 logger_V 4 "Generating eks-a cluster config file..." ;;;
                 check generateClusterConfigFile env fc (fst we) ;;
                 logger_V 4 "Generating eks-a kustomization file..." ;;;
                 generateEksaKustomizeFile env fc (fst we)
             end) s
            = (Panic,
               after (logged s [LogInfo 3 "Generating eks-a cluster manifest files..."])
                     [WithDir (eksaSystemDir fc)])).
  { cbv beta iota delta [bind ret logger_V log call onWriter panic].
    cbn [calls logs]. rewrite Hnil. reflexivity. }
  destruct (datacenterConfig fc) as [d|], (machineConfigs fc) as [m|].
  - eexists. split; [exact Hrun | reflexivity].
  - eexists. split; [exact Hrun | reflexivity].
  - eexists. split; [exact Hrun | reflexivity].
  - destruct Hsome as [H|H]; exfalso; apply H; reflexivity.
Qed.

Lemma writeEksaSystemFiles_panics_on_nil_writer_witness :
  fst (writeEksaSystemFiles Scenario.env_disk_full
         (mkFluxForCluster Scenario.flux (Scenario.mgmtSpec Scenario.hosted)
                           Scenario.dc Scenario.mcs)
         Scenario.start)
  = Panic.
Proof.
  destruct (writeEksaSystemFiles_panics_on_nil_writer Scenario.env_disk_full
              (mkFluxForCluster Scenario.flux (Scenario.mgmtSpec Scenario.hosted)
                                Scenario.dc Scenario.mcs)
              Scenario.tools Scenario.start eq_refl
              (or_introl (fun H => eq_ind Scenario.dc
                                     (fun o => match o with Some _ => True | None => False end)
                                     I None H))
              eq_refl)
    as (s' & Heq & _).
  rewrite Heq. reflexivity.
Defined.

(* ================================================================== *)
(** ** The logger package *)

Lemma Logger_setAll_done {L} (configs : list (L * string)) (p : Logger.Package L) :
  Logger.once p = true -> Logger.setAll configs p = p.
Proof.
  revert p. induction configs as [|c rest IH]; intros p Hp; [reflexivity|].
  unfold Logger.setAll in *. cbn [fold_left].
  unfold Logger.set at 2. rewrite Hp. apply IH. exact Hp.
Qed.

(** X15: the logger is configured once.  Of any series of [set] calls
    made from the start, only the first takes effect: [Get] returns its
    logger and [GetOutputFilePath] its path, whatever is set later.  Before
    any [set], [Get] returns the discarding logger and the path is empty. *)
Theorem Logger_first_set_wins {L} (discard logger : L) (out : string)
        (later : list (L * string)) :
  let p := Logger.setAll ((logger, out) :: later) (Logger.initial discard) in
  Logger.Get p = logger /\
  Logger.GetOutputFilePath p = out /\
  Logger.Get (Logger.initial discard) = discard /\
  Logger.GetOutputFilePath (Logger.initial discard) = "".
Proof.
  intro p. unfold p, Logger.setAll. cbn [fold_left fst snd].
  change (fold_left (fun st c => Logger.set (fst c) (snd c) st) later
                    (Logger.set logger out (Logger.initial discard)))
    with (Logger.setAll later (Logger.set logger out (Logger.initial discard))).
  rewrite Logger_setAll_done by reflexivity.
  repeat split.
Qed.

(* ================================================================== *)
(** ** The order of an install path *)

(** X16: on a cluster that is not an existing management cluster, once
    the repository is provisioned and the configuration committed and
    pushed, the bootstrap call is retried until it succeeds; when it does,
    the install path returns nil, every bootstrap call comes after the
    commit and its pushes, and [Uninstall] is not called. *)
Theorem install_bootstraps_after_commit env p f cluster fc spec s sa s1 s2 :
  ExistingManagement cluster = false ->
  provision env p fc s = (Ok None, sa) ->
  commitFluxAndClusterConfigToGit env fc sa = (Ok None, s1) ->
  Retry (retrier f) (call_err env (bootstrapCall p)) s1 = (Ok None, s2) ->
  installPath env p f cluster fc spec s = (Ok None, s2) /\
  (exists k,
      1 <= k <= attempts (retrier f) /\
      calls s2 = calls s1 ++ repeat (bootstrapCall p) k /\
      (forall j, j < k - 1 ->
                 r_err (env (calls s1 ++ repeat (bootstrapCall p) j) (bootstrapCall p))
                 <> None)) /\
  count_calls is_Uninstall (calls s2) = count_calls is_Uninstall (calls s1).
Proof.
  intros Hex Hprov Hcommit Hboot.
  split.
  { destruct p; simpl in Hprov, Hboot |- *;
      [unfold installGitOpsGithub | unfold installGitOpsGenericGit];
      rewrite (or_return_nil _ _ _ _ _ Hprov);
      rewrite (or_return_nil _ _ _ _ _ Hcommit);
      rewrite Hex; change (negb false) with true; cbv iota;
      rewrite (bind_eq _ _ _ _ _ Hboot); reflexivity. }
  destruct (retry_call_err env (retrier f) (bootstrapCall p) s1)
    as (k & Hk & Heq & _ & Hprev).
  rewrite Heq in Hboot. injection Hboot as Hr Hs2. subst s2.
  split.
  { exists k. split; [exact Hk|]. split; [reflexivity | exact Hprev]. }
  cbn [calls after]. rewrite count_calls_app.
  rewrite (count_calls_repeat_false is_Uninstall (bootstrapCall p) k);
    [lia | destruct p; reflexivity].
Qed.

Lemma install_bootstraps_after_commit_witness :
  exists s2,
    installPath Scenario.env_fresh Generic Scenario.flux Scenario.newCluster
      Scenario.generic_fc (Scenario.mgmtSpec Scenario.generic) Scenario.start
    = (Ok None, s2) /\
    count_calls is_Bootstrap (calls s2) = 1.
Proof.
  assert (H1 : provision Scenario.env_fresh Generic Scenario.generic_fc Scenario.start
               = (Ok None, Scenario.fresh_cloned))
    by (vm_compute; reflexivity).
  assert (H2 : commitFluxAndClusterConfigToGit Scenario.env_fresh Scenario.generic_fc
                 Scenario.fresh_cloned
               = (Ok None, Scenario.fresh_committed))
    by (vm_compute; reflexivity).
  assert (H3 : Retry (retrier Scenario.flux)
                 (call_err Scenario.env_fresh (bootstrapCall Generic))
                 Scenario.fresh_committed
               = (Ok None, after Scenario.fresh_committed [BootstrapGit]))
    by (vm_compute; reflexivity).
  destruct (install_bootstraps_after_commit Scenario.env_fresh Generic Scenario.flux
              Scenario.newCluster Scenario.generic_fc
              (Scenario.mgmtSpec Scenario.generic) Scenario.start _ _ _
              eq_refl H1 H2 H3)
    as (Heq & _ & _).
  eexists. split; [exact Heq|]. vm_compute. reflexivity.
Defined.

(** X17: an install path that fails in provisioning the repository or in
    committing the configuration returns that failure unchanged and never
    reaches the toolkit: no call on the flux executable is made. *)
Theorem install_failure_before_bootstrap env p f cluster fc spec s sa e :
  (provision env p fc s = (Ok (Some e), sa) \/
   exists s0, provision env p fc s = (Ok None, s0) /\
              commitFluxAndClusterConfigToGit env fc s0 = (Ok (Some e), sa)) ->
  installPath env p f cluster fc spec s = (Ok (Some e), sa) /\
  count_calls is_flux_call (calls sa) = count_calls is_flux_call (calls s).
Proof.
  intro H.
  set (P := fun c => is_flux_call c = false).
  assert (HP : forall c, is_flux_call c = false -> P c) by (intros c Hc; exact Hc).
  assert (Hprov : adds_only P (provision env p fc)).
  { destruct p; simpl.
    - apply adds_git_side_setupProviderRepository. exact HP.
    - apply adds_clone; reflexivity. }
  pose proof (adds_git_side_commitFlux env P HP fc) as Hcommit.
  destruct H as [Hfail | (s0 & Hok & Hfail)].
  - split.
    + destruct p; simpl in Hfail |- *;
        [unfold installGitOpsGithub | unfold installGitOpsGenericGit];
        exact (or_return_err _ (fun err => err) _ _ _ _ Hfail).
    + destruct (adds_grow P _ _ _ _ Hprov Hfail) as (l & Hl & HF).
      rewrite Hl, count_calls_app, (count_calls_Forall_false is_flux_call l HF). lia.
  - split.
    + destruct p; simpl in Hok |- *;
        [unfold installGitOpsGithub | unfold installGitOpsGenericGit];
        rewrite (or_return_nil _ _ _ _ _ Hok);
        exact (or_return_err _ (fun err => err) _ _ _ _ Hfail).
    + destruct (adds_grow P _ _ _ _ Hprov Hok) as (l0 & Hl0 & HF0).
      destruct (adds_grow P _ _ _ _ Hcommit Hfail) as (l & Hl & HF).
      rewrite Hl, Hl0, !count_calls_app.
      rewrite (count_calls_Forall_false is_flux_call l HF).
      rewrite (count_calls_Forall_false is_flux_call l0 HF0). lia.
Qed.

Lemma install_failure_before_bootstrap_witness :
  installPath Scenario.env_clone_denied Generic Scenario.flux Scenario.newCluster
    Scenario.generic_fc (Scenario.mgmtSpec Scenario.generic) Scenario.start
  = (Ok (Some (Opaque "permission denied")),
     after (logged Scenario.start [LogInfo 3 cloningMessage]) (repeat Clone 5)).
Proof.
  assert (H1 : provision Scenario.env_clone_denied Generic Scenario.generic_fc
                 Scenario.start
               = (Ok (Some (Opaque "permission denied")),
                  after (logged Scenario.start [LogInfo 3 cloningMessage])
                        (repeat Clone 5)))
    by (vm_compute; reflexivity).
  exact (proj1 (install_failure_before_bootstrap Scenario.env_clone_denied Generic
                  Scenario.flux Scenario.newCluster Scenario.generic_fc
                  (Scenario.mgmtSpec Scenario.generic) Scenario.start _ _
                  (or_introl H1))).
Defined.
